(** * machineConnector: the command workflow, its safety gate and its executor

  A shallow embedding of
    - [security/command_filter.py] and [prompts/safety.py] (module [Safety],
      with the fragment of Python's [re] the two pattern tables use in
      module [Re]),
    - [tools/command_executor.py] (module [Executor]),
    - [graph/nodes.py], [graph/edges.py], [graph/workflow.py] and the
      session loop of [main.py] (module [Graph]), with a few concrete
      sessions (module [Scenario]),
    - [security/sanitizer.py] (module [Sanitizer]), the pattern-based
      categories of [tools/failure_analyzer.py] (module
      [FailureAnalyzer]), [utils/conversation_memory.py] (module
      [Memory]) and one round of the prompt loop of [main.py] (module
      [Cli]).

  Python [str] values are modelled by [string]: sequences of code points
  below 256.  Timestamps and log output carry no information the
  properties below depend on and are left out. *)

From Stdlib Require Import Bool List String Ascii ZArith Lia DecimalString.
Import ListNotations.
Local Open Scope string_scope.

(* ================================================================== *)
(** ** Python string helpers *)

Module PyStr.

(** The line feed, written ["\n"] in the sources. *)
Definition LF : ascii := ascii_of_nat 10.

Definition is_upper (c : ascii) : bool :=
  let n := nat_of_ascii c in Nat.leb 65 n && Nat.leb n 90.

(** Case folding on the ASCII letters.  The patterns and keywords of the
    sources contain ASCII letters only, and no other code point below 256
    folds onto an ASCII letter. *)
Definition lower_ascii (c : ascii) : ascii :=
  if is_upper c then ascii_of_nat (nat_of_ascii c + 32) else c.

(** [s.lower()] *)
Fixpoint lower (s : string) : string :=
  match s with
  | EmptyString => EmptyString
  | String c r => String (lower_ascii c) (lower r)
  end.

(** [s.startswith(p)] *)
Fixpoint startswith (p s : string) : bool :=
  match p, s with
  | EmptyString, _ => true
  | String a p', String b s' => Ascii.eqb a b && startswith p' s'
  | String _ _, EmptyString => false
  end.

(** [p in s] for strings *)
Fixpoint contains (p s : string) : bool :=
  startswith p s ||
  match s with
  | EmptyString => false
  | String _ s' => contains p s'
  end.

(** [sep.join(l)] *)
Fixpoint join (sep : string) (l : list string) : string :=
  match l with
  | [] => ""
  | [x] => x
  | x :: r => x ++ sep ++ join sep r
  end.

(** Truth value of a [str]: the empty string is false. *)
Definition truthy (s : string) : bool :=
  match s with EmptyString => false | _ => true end.

(** Truth value of an [Optional[str]]: [None] and [""] are false. *)
Definition truthy_opt (o : option string) : bool :=
  match o with Some s => truthy s | None => false end.

(** [s[:n]] with Python's slice rule: a negative bound counts from the end,
    bounds outside the string are clamped. *)
Definition slice_to (n : Z) (s : string) : string :=
  let len := Z.of_nat (String.length s) in
  let stop := if (n <? 0)%Z then Z.max 0 (len + n) else Z.min n len in
  substring 0 (Z.to_nat stop) s.

(** [str(n)] for an [int] *)
Definition str_of_int (n : Z) : string :=
  NilZero.string_of_int (Z.to_int n).

End PyStr.

(* ================================================================== *)
(** ** The fragment of [re] used by the safety tables

  The patterns of [prompts/safety.py] are built from literal characters,
  [.], the class [\s], the escaped backslash, and the postfix operators
  [*] and [+] on a single character.  [compile] reads exactly this
  fragment and rejects the rest of the syntax. *)

Module Re.

Inductive atom : Type :=
| ALit (c : ascii)      (* a literal character *)
| AAny                  (* [.] : anything but a line feed *)
| ASpace.               (* [\s] *)

Inductive quant : Type := QOne | QStar | QPlus.

Definition item : Type := (atom * quant)%type.

Inductive token : Type :=
| TAtom (a : atom)
| TStar
| TPlus
| TBad.

(** Characters with a meaning of their own in [re] that the fragment does
    not cover. *)
Definition is_meta (c : ascii) : bool :=
  existsb (Ascii.eqb c)
    ["?"; "("; ")"; "["; "]"; "{"; "}"; "|"; "^"; "$"]%char.

Definition plain (c : ascii) : token :=
  if Ascii.eqb c "." then TAtom AAny
  else if Ascii.eqb c "*" then TStar
  else if Ascii.eqb c "+" then TPlus
  else if is_meta c then TBad
  else TAtom (ALit c).

Definition escape (c : ascii) : token :=
  if Ascii.eqb c "s" then TAtom ASpace
  else if Ascii.eqb c "\" then TAtom (ALit "\")
  else TBad.

Fixpoint tokens (s : string) : list token :=
  match s with
  | EmptyString => []
  | String c r =>
      if Ascii.eqb c "\" then
        match r with
        | EmptyString => [TBad]
        | String d r' => escape d :: tokens r'
        end
      else plain c :: tokens r
  end.

Fixpoint items (ts : list token) : option (list item) :=
  match ts with
  | [] => Some []
  | TAtom a :: ts' =>
      match ts' with
      | TStar :: ts'' => option_map (cons (a, QStar)) (items ts'')
      | TPlus :: ts'' => option_map (cons (a, QPlus)) (items ts'')
      | _ => option_map (cons (a, QOne)) (items ts')
      end
  | _ => None
  end.

(** [re.compile(pattern)] on the fragment *)
Definition compile (pattern : string) : option (list item) :=
  items (tokens pattern).

(** Unicode white space below 256, as [\s] matches it on [str]. *)
Definition is_space (c : ascii) : bool :=
  let n := nat_of_ascii c in
  (Nat.leb 9 n && Nat.leb n 13) || (Nat.leb 28 n && Nat.leb n 32)
  || Nat.eqb n 133 || Nat.eqb n 160.

(** One character against one atom, under [re.IGNORECASE]. *)
Definition atom_matches (a : atom) (c : ascii) : bool :=
  match a with
  | ALit x => Ascii.eqb (PyStr.lower_ascii x) (PyStr.lower_ascii c)
  | AAny => negb (Ascii.eqb c PyStr.LF)
  | ASpace => is_space c
  end.

(** Does some prefix of [s] match the items [p]? *)
Fixpoint match_here (p : list item) (s : string) {struct p} : bool :=
  match p with
  | [] => true
  | (a, QOne) :: p' =>
      match s with
      | String c s' => atom_matches a c && match_here p' s'
      | EmptyString => false
      end
  | (a, QStar) :: p' =>
      (fix star (t : string) : bool :=
         match_here p' t ||
         match t with
         | String c t' => atom_matches a c && star t'
         | EmptyString => false
         end) s
  | (a, QPlus) :: p' =>
      match s with
      | String c s' =>
          atom_matches a c &&
          (fix star (t : string) : bool :=
             match_here p' t ||
             match t with
             | String c' t' => atom_matches a c' && star t'
             | EmptyString => false
             end) s'
      | EmptyString => false
      end
  end.

(** Does a match start at some position of [s]? *)
Fixpoint search_items (p : list item) (s : string) : bool :=
  match_here p s ||
  match s with
  | EmptyString => false
  | String _ s' => search_items p s'
  end.

(** The truth value of [re.search(pattern, s, re.IGNORECASE)].  A pattern
    outside the fragment never occurs in the tables (see
    [tables_compile] below); it is given no match. *)
Definition search (pattern s : string) : bool :=
  match compile pattern with
  | Some p => search_items p s
  | None => false
  end.

End Re.

(* ================================================================== *)
(** ** [prompts/safety.py] and [security/command_filter.py] *)

Module Safety.

Definition DANGEROUS_PATTERNS : list string :=
  [ "Remove-Item.*-Recurse.*-Force";
    "Format-Volume";
    "Stop-Computer";
    "Restart-Computer";
    "Remove-Item.*\\Windows";
    "Set-ItemProperty.*HKLM";
    "Invoke-Expression";
    "iex\s";
    "Start-Process.*-Verb RunAs";
    "Disable-WindowsDefender";
    "Set-ExecutionPolicy.*Unrestricted";
    "Remove-Item.*-Path\s+C:\\";
    "Clear-RecycleBin.*-Force" ].

Definition SUSPICIOUS_PATTERNS : list string :=
  [ "Remove-Item";
    "Clear-RecycleBin";
    "New-NetFirewallRule";
    "Set-Service";
    "Stop-Process";
    "Remove-Computer";
    "Disable-" ].

Inductive level : Type := safe | suspicious | dangerous.

(** The dictionary [assess] returns. *)
Record assessment : Type := mkAssessment {
  a_level : level;
  matched_patterns : list string;
  a_warnings : list string;
  a_allow : bool
}.

(** The object: [self.dangerous_patterns], [self.suspicious_patterns]. *)
Record CommandFilter : Type := mkFilter {
  dangerous_patterns : list string;
  suspicious_patterns : list string
}.

(** [CommandFilter()] *)
Definition new_filter : CommandFilter :=
  mkFilter DANGEROUS_PATTERNS SUSPICIOUS_PATTERNS.

Definition danger_msg (pattern : string) : string :=
  "DANGER: Potentially destructive operation detected matching: " ++ pattern.

Definition caution_msg (pattern : string) : string :=
  "CAUTION: Potentially risky operation detected matching: " ++ pattern.

(** One [for pattern in ...] loop of [assess]: the matching patterns are
    appended to [matched] and their messages to [warnings]. *)
Fixpoint scan (msg : string -> string) (patterns : list string)
    (command : string) (matched warnings : list string)
  : list string * list string :=
  match patterns with
  | [] => (matched, warnings)
  | pattern :: rest =>
      if Re.search pattern command
      then scan msg rest command (matched ++ [pattern])
                (warnings ++ [msg pattern])
      else scan msg rest command matched warnings
  end.

(** [CommandFilter.assess] *)
Definition assess (self : CommandFilter) (command : string) : assessment :=
  let '(matched_dangerous, warnings) :=
    scan danger_msg (dangerous_patterns self) command [] [] in
  let '(matched_suspicious, warnings) :=
    match matched_dangerous with
    | [] => scan caution_msg (suspicious_patterns self) command [] warnings
    | _ :: _ => ([], warnings)
    end in
  let '(lvl, allow) :=
    match matched_dangerous, matched_suspicious with
    | _ :: _, _ => (dangerous, false)
    | [], _ :: _ => (suspicious, true)
    | [], [] => (safe, true)
    end in
  mkAssessment lvl (matched_dangerous ++ matched_suspicious) warnings allow.

End Safety.


(* ================================================================== *)
(** ** [tools/command_executor.py] *)

Module Executor.

(** The three interpreters.  The workflow names them by the strings
    "powershell", "cmd" and "bash". *)
Inductive shell : Type := powershell | cmd | bash.

Definition shell_eqb (a b : shell) : bool :=
  match a, b with
  | powershell, powershell | cmd, cmd | bash, bash => true
  | _, _ => false
  end.

Definition shell_name (s : shell) : string :=
  match s with
  | powershell => "powershell"
  | cmd => "cmd"
  | bash => "bash"
  end.

(** [PowerShellExecutor]: [self.timeout], [self.max_output_size]. *)
Record PowerShellExecutor : Type := mkExecutor {
  timeout : Z;
  max_output_size : Z
}.

(** What happens inside the [try] block of an [execute*] method once the
    argument vector is handed to [asyncio.create_subprocess_exec].
      - [Raised msg]: a call of the block raised an [Exception] whose text
        is [msg] (the interpreter is missing, the operating system refuses
        the launch, ...); the outer [except Exception] handles it;
      - [Exited out err rc]: [communicate()] returned within the time limit;
        [out] and [err] are the decoded streams, [rc] is
        [process.returncode];
      - [TimedOut]: [asyncio.wait_for] raised [TimeoutError] and the inner
        handler killed the process. *)
Inductive run_outcome : Type :=
| Raised (msg : string)
| Exited (out err : string) (rc : Z)
| TimedOut.

(** The dictionary an [execute*] method returns ([execution_time] left
    out).  [error] and [r_shell_type] are the keys only some of the
    dictionaries carry. *)
Record result : Type := mkResult {
  stdout : string;
  stderr : string;
  return_code : Z;
  timed_out : bool;
  error : option string;
  r_shell_type : option string
}.

(** [timeout or self.timeout] *)
Definition timeout_or (t : option Z) (default : Z) : Z :=
  match t with
  | Some z => if (z =? 0)%Z then default else z
  | None => default
  end.

Definition STDOUT_MARKER : string :=
  String PyStr.LF "... (output truncated)".

Definition STDERR_MARKER : string :=
  String PyStr.LF "... (error output truncated)".

(** [if len(s) > self.max_output_size: s = s[:self.max_output_size] + marker] *)
Definition truncate (self : PowerShellExecutor) (marker s : string) : string :=
  if (Z.of_nat (String.length s) >? max_output_size self)%Z
  then PyStr.slice_to (max_output_size self) s ++ marker
  else s.

Definition timeout_text (t : Z) : string :=
  "Command timed out after " ++ PyStr.str_of_int t ++ " seconds".

(** [s.encode("utf-8")] on text of code points below 256: a code point
    below 128 is one byte, any other one is two.  A process that writes
    these bytes has [s] as its decoded stream. *)
Fixpoint utf8 (s : string) : list ascii :=
  match s with
  | EmptyString => []
  | String c r =>
      let n := nat_of_ascii c in
      if Nat.ltb n 128 then c :: utf8 r
      else ascii_of_nat (192 + n / 64)
           :: ascii_of_nat (128 + n mod 64) :: utf8 r
  end.

(** The size of a text in bytes. *)
Definition size_in_bytes (s : string) : nat := List.length (utf8 s).

(** The argument vectors: the command is one element of the list. *)
Definition powershell_argv (command : string) : list string :=
  ["powershell.exe"; "-NoProfile"; "-NonInteractive";
   "-ExecutionPolicy"; "Bypass"; "-Command"; command].

Definition cmd_argv (command : string) : list string :=
  ["cmd.exe"; "/c"; command].

Definition bash_argv (windows : bool) (command : string) : list string :=
  [if windows then "bash.exe" else "bash"; "-c"; command].

(** The body the three methods share, from [start_time = time.time()] on;
    [tag] is the value of the ["shell_type"] key, absent for PowerShell. *)
Definition run (self : PowerShellExecutor) (tag : option string)
    (t : Z) (o : run_outcome) : result :=
  match o with
  | Raised msg =>
      mkResult "" msg (-1) false (Some msg) tag
  | Exited out err rc =>
      mkResult (truncate self STDOUT_MARKER out)
               (truncate self STDERR_MARKER err)
               rc false None tag
  | TimedOut =>
      mkResult (truncate self STDOUT_MARKER "")
               (truncate self STDERR_MARKER (timeout_text t))
               (-1) true None tag
  end.

(** [PowerShellExecutor.execute] *)
Definition execute (self : PowerShellExecutor) (command : string)
    (t : option Z) (os : list string -> Z -> run_outcome) : result :=
  let t := timeout_or t (timeout self) in
  run self None t (os (powershell_argv command) t).

(** [PowerShellExecutor.execute_cmd] *)
Definition execute_cmd (self : PowerShellExecutor) (command : string)
    (t : option Z) (os : list string -> Z -> run_outcome) : result :=
  let t := timeout_or t (timeout self) in
  run self (Some "cmd") t (os (cmd_argv command) t).

(** [PowerShellExecutor.execute_bash]; [windows] is
    [platform.system() == "Windows"]. *)
Definition execute_bash (self : PowerShellExecutor) (windows : bool)
    (command : string) (t : option Z)
    (os : list string -> Z -> run_outcome) : result :=
  let t := timeout_or t (timeout self) in
  run self (Some "bash") t (os (bash_argv windows command) t).

(** The method that serves a shell, and the argument vector it launches. *)
Definition execute_in (self : PowerShellExecutor) (windows : bool)
    (s : shell) (command : string) (t : option Z)
    (os : list string -> Z -> run_outcome) : result :=
  match s with
  | powershell => execute self command t os
  | cmd => execute_cmd self command t os
  | bash => execute_bash self windows command t os
  end.

Definition argv_in (windows : bool) (s : shell) (command : string)
  : list string :=
  match s with
  | powershell => powershell_argv command
  | cmd => cmd_argv command
  | bash => bash_argv windows command
  end.

End Executor.

(* ================================================================== *)
(** ** [graph/nodes.py], [graph/edges.py], [graph/workflow.py], [main.py] *)

Module Graph.

Import Executor.

(** The fields of [config/settings.py] the workflow reads. *)
Record Settings : Type := mkSettings {
  max_execution_timeout : Z;
  settings_max_output_size : Z;
  settings_max_retries : Z
}.

(** The values of [next_step].  The nodes write the first seven;
    [route_after_execution] also tests for [ns_intelligent_retry]. *)
Inductive step_hint : Type :=
| ns_generate | ns_confirm | ns_execute | ns_validate | ns_present | ns_end
| ns_try_alternative | ns_intelligent_retry.

(** The values of [execution_status]. *)
Inductive status : Type := pending | success | failed | status_error.

(** The dictionary stored under [safety_assessment]. *)
Record assessment : Type := mkSA {
  level : Safety.level;
  warnings : list string;
  allow : bool;
  llm_safety : option string;
  filter_patterns : list string
}.

(** An entry of [execution_history]. *)
Record history_entry : Type := mkHistory {
  h_user_input : string;
  h_command : option string;
  h_result : option result;
  h_validated : option bool;
  h_status : status
}.

(** [CommandState], with the keys [main.py] initialises. *)
Record CommandState : Type := mkState {
  user_input : string;
  generated_command : option string;
  command_explanation : option string;
  safety_assessment : option assessment;
  shell_type : shell;
  attempted_shells : list shell;
  user_confirmed : option bool;
  user_feedback : option string;
  execution_status : status;
  execution_result : option result;
  validation_passed : option bool;
  validation_reasoning : option string;
  validation_suggestions : option (list string);
  requires_analysis : option bool;
  analysis_type : option string;
  analysis_target : option string;
  analysis_result : option string;
  content_to_analyze : option string;
  error_message : option string;
  error_type : option string;
  retry_count : Z;
  max_retries : Z;
  messages : list string;
  execution_history : list history_entry;
  next_step : step_hint
}.

(** How the graph merges a value written to [attempted_shells] into the
    stored one.  The declaration of the state ([graph/state.py]) is not
    among the sources, so the rule is a parameter of the model: the written
    list replaces the stored one, or is appended to it.  All other keys
    are overwritten. *)
Inductive reducer : Type := LastValue | OperatorAdd.

Definition merge_shells (red : reducer) (old new : list shell) : list shell :=
  match red with
  | LastValue => new
  | OperatorAdd => old ++ new
  end.

(** One [key: value] pair of the dictionary a node returns. *)
Inductive assignment : Type :=
| Set_generated_command (v : string)
| Set_command_explanation (v : string)
| Set_safety_assessment (v : assessment)
| Set_shell_type (v : shell)
| Set_attempted_shells (v : list shell)
| Set_user_confirmed (v : bool)
| Set_confirmation_timestamp
| Set_user_feedback (v : option string)
| Set_execution_status (v : status)
| Set_execution_result (v : result)
| Set_execution_timestamp
| Set_validation_passed (v : option bool)
| Set_validation_reasoning (v : string)
| Set_validation_suggestions (v : list string)
| Set_requires_analysis (v : bool)
| Set_analysis_type (v : option string)
| Set_analysis_target (v : option string)
| Set_analysis_result (v : string)
| Set_content_to_analyze (v : string)
| Set_error_message (v : string)
| Set_error_type (v : string)
| Set_retry_count (v : Z)
| Set_messages (v : list string)
| Set_execution_history (v : list history_entry)
| Set_next_step (v : step_hint).

Definition update : Type := list assignment.

Definition assign (red : reducer) (s : CommandState) (a : assignment)
  : CommandState :=
  let '(mkState ui gc ce sa sh att uc uf es er vp vr vs ra aty atg ar ca
                em et rc mr ms eh ns) := s in
  match a with
  | Set_generated_command v =>
      mkState ui (Some v) ce sa sh att uc uf es er vp vr vs ra aty atg ar ca em et rc mr ms eh ns
  | Set_command_explanation v =>
      mkState ui gc (Some v) sa sh att uc uf es er vp vr vs ra aty atg ar ca em et rc mr ms eh ns
  | Set_safety_assessment v =>
      mkState ui gc ce (Some v) sh att uc uf es er vp vr vs ra aty atg ar ca em et rc mr ms eh ns
  | Set_shell_type v =>
      mkState ui gc ce sa v att uc uf es er vp vr vs ra aty atg ar ca em et rc mr ms eh ns
  | Set_attempted_shells v =>
      mkState ui gc ce sa sh (merge_shells red att v) uc uf es er vp vr vs ra aty atg ar ca em et rc mr ms eh ns
  | Set_user_confirmed v =>
      mkState ui gc ce sa sh att (Some v) uf es er vp vr vs ra aty atg ar ca em et rc mr ms eh ns
  | Set_confirmation_timestamp => s
  | Set_user_feedback v =>
      mkState ui gc ce sa sh att uc v es er vp vr vs ra aty atg ar ca em et rc mr ms eh ns
  | Set_execution_status v =>
      mkState ui gc ce sa sh att uc uf v er vp vr vs ra aty atg ar ca em et rc mr ms eh ns
  | Set_execution_result v =>
      mkState ui gc ce sa sh att uc uf es (Some v) vp vr vs ra aty atg ar ca em et rc mr ms eh ns
  | Set_execution_timestamp => s
  | Set_validation_passed v =>
      mkState ui gc ce sa sh att uc uf es er v vr vs ra aty atg ar ca em et rc mr ms eh ns
  | Set_validation_reasoning v =>
      mkState ui gc ce sa sh att uc uf es er vp (Some v) vs ra aty atg ar ca em et rc mr ms eh ns
  | Set_validation_suggestions v =>
      mkState ui gc ce sa sh att uc uf es er vp vr (Some v) ra aty atg ar ca em et rc mr ms eh ns
  | Set_requires_analysis v =>
      mkState ui gc ce sa sh att uc uf es er vp vr vs (Some v) aty atg ar ca em et rc mr ms eh ns
  | Set_analysis_type v =>
      mkState ui gc ce sa sh att uc uf es er vp vr vs ra v atg ar ca em et rc mr ms eh ns
  | Set_analysis_target v =>
      mkState ui gc ce sa sh att uc uf es er vp vr vs ra aty v ar ca em et rc mr ms eh ns
  | Set_analysis_result v =>
      mkState ui gc ce sa sh att uc uf es er vp vr vs ra aty atg (Some v) ca em et rc mr ms eh ns
  | Set_content_to_analyze v =>
      mkState ui gc ce sa sh att uc uf es er vp vr vs ra aty atg ar (Some v) em et rc mr ms eh ns
  | Set_error_message v =>
      mkState ui gc ce sa sh att uc uf es er vp vr vs ra aty atg ar ca (Some v) et rc mr ms eh ns
  | Set_error_type v =>
      mkState ui gc ce sa sh att uc uf es er vp vr vs ra aty atg ar ca em (Some v) rc mr ms eh ns
  | Set_retry_count v =>
      mkState ui gc ce sa sh att uc uf es er vp vr vs ra aty atg ar ca em et v mr ms eh ns
  | Set_messages v =>
      mkState ui gc ce sa sh att uc uf es er vp vr vs ra aty atg ar ca em et rc mr v eh ns
  | Set_execution_history v =>
      mkState ui gc ce sa sh att uc uf es er vp vr vs ra aty atg ar ca em et rc mr ms v ns
  | Set_next_step v =>
      mkState ui gc ce sa sh att uc uf es er vp vr vs ra aty atg ar ca em et rc mr ms eh v
  end.

(** Merging the dictionary a node returns into the state. *)
Definition apply_update (red : reducer) (u : update) (s : CommandState)
  : CommandState :=
  fold_left (assign red) u s.

(** [initial_state] of [PowerShellCLI.execute_workflow] *)
Definition initial_state (settings : Settings) (input : string)
  : CommandState :=
  {| user_input := input;
     generated_command := None;
     command_explanation := None;
     safety_assessment := None;
     shell_type := powershell;
     attempted_shells := [];
     user_confirmed := None;
     user_feedback := None;
     execution_status := pending;
     execution_result := None;
     validation_passed := None;
     validation_reasoning := None;
     validation_suggestions := None;
     requires_analysis := None;
     analysis_type := None;
     analysis_target := None;
     analysis_result := None;
     content_to_analyze := None;
     error_message := None;
     error_type := None;
     retry_count := 0;
     max_retries := settings_max_retries settings;
     messages := [];
     execution_history := [];
     next_step := ns_generate |}.

(** The answer of an awaited call: a value, or a raised [Exception] with
    its text. *)
Inductive reply (A : Type) : Type :=
| Returned (a : A)
| Raises (msg : string).
Arguments Returned {A} a.
Arguments Raises {A} msg.

(** The dictionary [CommandGenerator.generate] returns. *)
Record generation_result : Type := mkGeneration {
  g_command : string;
  g_explanation : string;
  g_safety_level : option string;
  g_warnings : list string
}.

(** The dictionary [ResultValidator.validate] returns. *)
Record validation : Type := mkValidation {
  v_passed : option bool;
  v_reasoning : string;
  v_suggestions : list string
}.

(** [command_filter = CommandFilter()] *)
Definition command_filter : Safety.CommandFilter := Safety.new_filter.

Definition analysis_keywords : list string :=
  ["explain"; "analyze"; "check what"; "what is the purpose";
   "understand"; "summarize"; "review"; "describe"; "tell me about"].

Definition file_operation_keywords : list string :=
  ["read"; "checkout"; "clone"; "download"; "cat"; "type"].

(** [any(keyword in s for keyword in keywords)] *)
Definition any_in (keywords : list string) (s : string) : bool :=
  existsb (fun keyword => PyStr.contains keyword s) keywords.

(** The analysis intent [generate_command_node] reads off the request:
    [(requires_analysis, analysis_type)]. *)
Definition detect_analysis (input : string) : bool * string :=
  let lower_input := PyStr.lower input in
  if any_in analysis_keywords lower_input
     && any_in file_operation_keywords lower_input
  then
    (true,
     if PyStr.contains "purpose" lower_input
        || PyStr.contains "what is" lower_input then "purpose"
     else if PyStr.contains "security" lower_input
        || PyStr.contains "vulnerab" lower_input then "security"
     else if PyStr.contains "explain" lower_input
        || PyStr.contains "understand" lower_input then "explain"
     else "general")
  else (false, "general").

(** [generate_command_node]; [generate] is the generation service as it
    answers at this call (the context dictionary handed with the request
    only influences that answer). *)
Definition generate_command_node (state : CommandState)
    (generate : string -> reply generation_result) : update :=
  match generate (user_input state) with
  | Returned generation_result =>
      let '(requires, kind) := detect_analysis (user_input state) in
      let safety := Safety.assess command_filter (g_command generation_result) in
      let all_warnings :=
        (g_warnings generation_result ++ Safety.a_warnings safety)%list in
      let combined_assessment :=
        mkSA (Safety.a_level safety) all_warnings (Safety.a_allow safety)
             (g_safety_level generation_result)
             (Safety.matched_patterns safety) in
      [ Set_generated_command (g_command generation_result);
        Set_command_explanation (g_explanation generation_result);
        Set_safety_assessment combined_assessment;
        Set_requires_analysis requires;
        Set_analysis_type (if requires then Some kind else None);
        Set_next_step ns_confirm;
        Set_messages
          (messages state ++
           [("Generated command: " ++ g_command generation_result)%string])%list ]
  | Raises e =>
      [ Set_error_message e;
        Set_error_type "generation_error";
        Set_execution_status status_error;
        Set_next_step ns_end ]
  end.

(** What [interrupt(confirmation_data)] hands to the caller. *)
Record confirmation_data : Type := mkConfirmation {
  c_command : option string;
  c_explanation : option string;
  c_safety : assessment
}.

(** A node returns its dictionary, or suspends the graph, or raises. *)
Inductive node_result : Type :=
| Update (u : update)
| Interrupt (d : confirmation_data)
| Fault (msg : string).

(** [await_confirmation_node].  With [safety_assessment] still [None] the
    subscript [state["safety_assessment"]["allow"]] raises [TypeError]. *)
Definition await_confirmation_node (state : CommandState) : node_result :=
  match user_confirmed state with
  | Some _ => Update [ Set_confirmation_timestamp ]
  | None =>
      match safety_assessment state with
      | None => Fault "'NoneType' object is not subscriptable"
      | Some sa =>
          if negb (allow sa) then
            Update
              [ Set_user_confirmed false;
                Set_confirmation_timestamp;
                Set_user_feedback (Some "Command blocked due to safety concerns");
                Set_error_message
                  ("Command blocked: " ++ PyStr.join "; " (warnings sa));
                Set_next_step ns_end ]
          else
            Interrupt (mkConfirmation (generated_command state)
                                      (command_explanation state) sa)
      end
  end.

(** The update [main.py] merges into the checkpoint after the prompt:
    [confirmed] is the answer to "Execute this command?", [answer] the
    feedback typed after a refusal (asked for only then). *)
Definition human_update (confirmed : bool) (answer : string) : update :=
  let feedback := if confirmed then None else Some answer in
  [ Set_user_confirmed confirmed;
    Set_user_feedback (if PyStr.truthy_opt feedback then feedback else None);
    Set_confirmation_timestamp ].

(** [shell_type in attempted_shells] *)
Definition shell_in (s : shell) (l : list shell) : bool :=
  existsb (shell_eqb s) l.

(** [execute_command_node]; [r] is the outcome of the awaited executor
    call. *)
Definition execute_command_node (state : CommandState)
    (r : reply result) : update :=
  let shell_type := shell_type state in
  let attempted_shells := attempted_shells state in
  match r with
  | Returned result =>
      let has_error :=
        PyStr.truthy_opt (error result) || negb (return_code result =? 0)%Z in
      let status := if (return_code result =? 0)%Z then success else failed in
      if has_error && negb (shell_in shell_type attempted_shells) then
        [ Set_execution_status status;
          Set_execution_result result;
          Set_execution_timestamp;
          Set_attempted_shells [shell_type];
          Set_next_step ns_try_alternative ]
      else
        [ Set_execution_status status;
          Set_execution_result result;
          Set_execution_timestamp;
          Set_attempted_shells [shell_type];
          Set_next_step ns_validate ]
  | Raises e =>
      if negb (shell_in shell_type attempted_shells) then
        [ Set_execution_status status_error;
          Set_error_message e;
          Set_error_type "execution_error";
          Set_execution_timestamp;
          Set_attempted_shells [shell_type];
          Set_next_step ns_try_alternative ]
      else
        [ Set_execution_status status_error;
          Set_error_message e;
          Set_error_type "execution_error";
          Set_execution_timestamp;
          Set_next_step ns_present ]
  end.

(** The executor call of [execute_command_node]: the method is chosen by
    [shell_type], the time limit is [settings.max_execution_timeout].  The
    node is only reached with a generated command; without one the model
    passes the empty string. *)
Definition call_executor (settings : Settings) (windows : bool)
    (os : list string -> Z -> run_outcome) (state : CommandState) : result :=
  let command_executor :=
    mkExecutor (max_execution_timeout settings)
               (settings_max_output_size settings) in
  let command :=
    match generated_command state with Some c => c | None => "" end in
  let limit := Some (max_execution_timeout settings) in
  match shell_type state with
  | cmd => execute_cmd command_executor command limit os
  | bash => execute_bash command_executor windows command limit os
  | powershell => execute command_executor command limit os
  end.

(** [validate_result_node]; [validate] is the validation service as it
    answers at this call. *)
Definition validate_result_node (state : CommandState)
    (validate : string -> option string -> option result -> reply validation)
  : update :=
  match validate (user_input state) (generated_command state)
                 (execution_result state) with
  | Returned validation =>
      [ Set_validation_passed (v_passed validation);
        Set_validation_reasoning (v_reasoning validation);
        Set_validation_suggestions (v_suggestions validation);
        Set_next_step ns_present ]
  | Raises e =>
      [ Set_validation_passed None;
        Set_validation_reasoning ("Validation failed: " ++ e);
        Set_validation_suggestions [];
        Set_next_step ns_present ]
  end.

(** [present_result_node] *)
Definition present_result_node (state : CommandState) : update :=
  let history_entry :=
    mkHistory (user_input state) (generated_command state)
              (execution_result state) (validation_passed state)
              (execution_status state) in
  [ Set_next_step ns_end;
    Set_execution_history (execution_history state ++ [history_entry])%list ].

(** [retry_node].  The key [max_retries] is always present, so the default
    of [state.get("max_retries", settings.max_retries)] is never used. *)
Definition retry_node (state : CommandState) : update :=
  let retry_count := (retry_count state + 1)%Z in
  if (retry_count >=? max_retries state)%Z then
    [ Set_next_step ns_end;
      Set_error_message "Maximum retries exceeded";
      Set_retry_count retry_count ]
  else
    [ Set_retry_count retry_count;
      Set_next_step ns_generate ].

(** The [return] statement [analyze_content_node] leaves by.  Which one it
    is depends on the file system and on the analysis service; both are
    outside the model, so the environment chooses. *)
Inductive analysis_outcome : Type :=
| OutputAnalysed (analysis : string)
| RepositoryAnalysed (analysis repo_path : string)
| FileAnalysed (analysis : string) (target : option string) (sample : string)
| NothingToAnalyse
| AnalysisRaised (e : string).

(** [analyze_content_node] *)
Definition analyze_content_node (o : analysis_outcome) : update :=
  match o with
  | OutputAnalysed analysis_result =>
      [ Set_analysis_result analysis_result;
        Set_next_step ns_present ]
  | RepositoryAnalysed analysis_result repo_path =>
      [ Set_analysis_result analysis_result;
        Set_analysis_target (Some repo_path);
        Set_next_step ns_present ]
  | FileAnalysed analysis_result analysis_target sample =>
      [ Set_analysis_result analysis_result;
        Set_analysis_target analysis_target;
        Set_content_to_analyze sample;
        Set_next_step ns_present ]
  | NothingToAnalyse =>
      [ Set_error_message
          "Could not find content to analyze. Please ensure the file exists or command output is available.";
        Set_next_step ns_present ]
  | AnalysisRaised e =>
      [ Set_error_message ("Analysis failed: " ++ e);
        Set_error_type "analysis_error";
        Set_next_step ns_present ]
  end.

Definition shell_order : list shell := [powershell; cmd; bash].

(** [str(x)] for an [Optional[str]] inside an f-string. *)
Definition str_of_opt (o : option string) : string :=
  match o with Some s => s | None => "None" end.

(** The prompt [try_alternative_shell_node] sends to the generator. *)
Definition alternative_prompt (current_shell next_shell : shell)
    (previous_error : string) (previous_command : option string)
    (input : string) : string :=
  "The previous " ++ shell_name current_shell
  ++ " command failed with error:" ++ String PyStr.LF previous_error
  ++ String PyStr.LF (String PyStr.LF "Previous command: ")
  ++ str_of_opt previous_command
  ++ String PyStr.LF (String PyStr.LF "Please generate an equivalent ")
  ++ shell_name next_shell
  ++ " command to accomplish the same task: " ++ input
  ++ String PyStr.LF (String PyStr.LF "Provide ONLY the ")
  ++ shell_name next_shell ++ " command, no explanations.".

(** [try_alternative_shell_node].  With [execution_result] still [None],
    [state.get("execution_result", {}).get("stderr", "")] raises
    [AttributeError] inside the [try] block. *)
Definition try_alternative_shell_node (state : CommandState)
    (generate : string -> reply generation_result) : update :=
  let attempted_shells := attempted_shells state in
  let current_shell := shell_type state in
  match find (fun shell => negb (shell_in shell attempted_shells)) shell_order with
  | None =>
      [ Set_error_message
          ("Execution failed in all shells: "
           ++ PyStr.join ", " (map shell_name attempted_shells));
        Set_next_step ns_present ]
  | Some next_shell =>
      let attempt :=
        match execution_result state with
        | None => Raises "'NoneType' object has no attribute 'get'"
        | Some previous =>
            generate (alternative_prompt current_shell next_shell
                        (stderr previous) (generated_command state)
                        (user_input state))
        end in
      match attempt with
      | Returned generation_result =>
          let safety :=
            Safety.assess command_filter (g_command generation_result) in
          [ Set_generated_command (g_command generation_result);
            Set_command_explanation
              ("Alternative " ++ shell_name next_shell ++ " command: "
               ++ g_explanation generation_result);
            Set_safety_assessment
              (mkSA (Safety.a_level safety) (Safety.a_warnings safety)
                    (Safety.a_allow safety) None []);
            Set_shell_type next_shell;
            Set_user_confirmed true;
            Set_next_step ns_execute ]
      | Raises e =>
          [ Set_error_message
              ("Failed to generate " ++ shell_name next_shell
               ++ " alternative: " ++ e);
            Set_error_type "alternative_generation_error";
            Set_next_step ns_present ]
      end
  end.

(** The nodes of the graph, and [END]. *)
Inductive node : Type :=
| n_generate_command
| n_await_confirmation
| n_execute_command
| n_validate_result
| n_present_result
| n_retry_node
| n_intelligent_retry
| n_try_alternative_shell
| n_analyze_content
| END.

(** Truth value of an [Optional[bool]]. *)
Definition truthy_bool (o : option bool) : bool :=
  match o with Some b => b | None => false end.

(** [route_after_confirmation], composed with the edge table that maps its
    labels to nodes. *)
Definition route_after_confirmation (state : CommandState) : node :=
  if truthy_bool (user_confirmed state) then n_execute_command
  else if PyStr.truthy_opt (user_feedback state) then n_retry_node
  else END.

(** [route_after_execution] *)
Definition route_after_execution (state : CommandState) : node :=
  match next_step state with
  | ns_intelligent_retry => n_intelligent_retry
  | ns_try_alternative => n_try_alternative_shell
  | _ =>
      match execution_status state with
      | success | failed => n_validate_result
      | _ => n_present_result
      end
  end.

(** [route_after_retry]; the key [max_retries] is always present. *)
Definition route_after_retry (state : CommandState) : node :=
  if (retry_count state <? max_retries state)%Z then n_generate_command
  else END.

(** [route_after_validation], local to [create_workflow] *)
Definition route_after_validation (state : CommandState) : node :=
  if truthy_bool (requires_analysis state) then n_analyze_content
  else n_present_result.

(** The edges [create_workflow] adds: the node that runs after [n], given
    the state [n] left. *)
Definition next_node (n : node) (state : CommandState) : node :=
  match n with
  | n_generate_command => n_await_confirmation
  | n_await_confirmation => route_after_confirmation state
  | n_execute_command => route_after_execution state
  | n_intelligent_retry => n_execute_command
  | n_validate_result => route_after_validation state
  | n_analyze_content => n_present_result
  | n_present_result => END
  | n_retry_node => route_after_retry state
  | n_try_alternative_shell => n_execute_command
  | END => END
  end.

(** The collaborators of a session, each indexed by the number of the
    step at which it is called, so that the same request may be answered
    differently at different times.
      - [exception_in_executor_call]: an exception that escapes the
        executor call of [execute_command_node] and reaches the node's own
        handler (the executor handles every [Exception] of its [try] block
        itself). *)
Record world : Type := mkWorld {
  generation_service : nat -> string -> reply generation_result;
  operating_system : nat -> list string -> Z -> run_outcome;
  exception_in_executor_call : nat -> option string;
  validation_service :
    nat -> string -> option string -> option result -> reply validation;
  analysis : nat -> CommandState -> analysis_outcome;
  human : nat -> bool * string;
  on_windows : bool
}.

(** Where a session stands. *)
Inductive phase : Type :=
| At (n : node)              (* [n] runs next *)
| Suspended                  (* interrupted, waiting for the human *)
| Done (from : node)         (* [END] reached by the edge out of [from] *)
| Crashed (msg : string).    (* a node raised *)

(** A session: its phase, its state, and the states in which the Process
    Executor was invoked so far, oldest first. *)
Record config : Type := mkConfig {
  c_phase : phase;
  c_state : CommandState;
  c_executed : list CommandState
}.

(** The dictionaries the nodes of [graph/nodes.py] and the prompt of
    [main.py] can hand to the graph in a given state. *)
Inductive returned_by (state : CommandState) : update -> Prop :=
| by_generate_command generate :
    returned_by state (generate_command_node state generate)
| by_await_confirmation u :
    await_confirmation_node state = Update u -> returned_by state u
| by_human confirmed answer :
    returned_by state (human_update confirmed answer)
| by_execute_command r :
    returned_by state (execute_command_node state r)
| by_validate_result validate :
    returned_by state (validate_result_node state validate)
| by_analyze_content o :
    returned_by state (analyze_content_node o)
| by_present_result :
    returned_by state (present_result_node state)
| by_retry_node :
    returned_by state (retry_node state)
| by_try_alternative_shell generate :
    returned_by state (try_alternative_shell_node state generate).

(** Observations on states, used to state the properties. *)

(** An optional field that holds a value. *)
Definition populated {A : Type} (o : option A) : bool :=
  match o with Some _ => true | None => false end.

(** The state carries an execution result or an error message. *)
Definition has_outcome (state : CommandState) : bool :=
  populated (execution_result state) || populated (error_message state).

(** The human refused the command and gave no feedback. *)
Definition rejected_without_feedback (state : CommandState) : bool :=
  match user_confirmed state with
  | Some false => negb (PyStr.truthy_opt (user_feedback state))
  | _ => false
  end.

(** The pair writes ["intelligent_retry"] to [next_step]. *)
Definition asks_intelligent_retry (a : assignment) : bool :=
  match a with
  | Set_next_step ns_intelligent_retry => true
  | _ => false
  end.

(** The pair writes [user_confirmed]. *)
Definition writes_user_confirmed (a : assignment) : bool :=
  match a with
  | Set_user_confirmed _ => true
  | _ => false
  end.

(** What every configuration of a session satisfies (proved below): the
    intelligent-retry stage is neither requested nor entered; the stages
    after an execution see an execution result or an error message; and a
    finished session has one of the two unless it ended at the
    confirmation stage on a refusal without feedback. *)
Definition session_invariant (c : config) : Prop :=
  next_step (c_state c) <> ns_intelligent_retry
  /\ match c_phase c with
     | At n_intelligent_retry => False
     | At n_validate_result | At n_analyze_content | At n_present_result
     | At n_try_alternative_shell => has_outcome (c_state c) = true
     | Done from =>
         has_outcome (c_state c) = true
         \/ (from = n_await_confirmation
             /\ rejected_without_feedback (c_state c) = true)
     | _ => True
     end.

(** What the state a node leaves must satisfy for the stage its edge
    leads to, so that [session_invariant] holds there. *)
Definition target_ok (n : node) (state : CommandState) : Prop :=
  match next_node n state with
  | END =>
      has_outcome state = true
      \/ (n = n_await_confirmation /\ rejected_without_feedback state = true)
  | n_validate_result | n_analyze_content | n_present_result
  | n_try_alternative_shell => has_outcome state = true
  | _ => True
  end.

(** A session the confirmation was refused in, at one of the stages it can
    still visit. *)
Definition refused (c : config) : Prop :=
  user_confirmed (c_state c) = Some false
  /\ match c_phase c with
     | At n_generate_command | At n_await_confirmation | At n_retry_node
     | Done _ | Crashed _ => True
     | _ => False
     end.

Section Engine.

Variable red : reducer.
Variable settings : Settings.

(** [intelligent_retry_node] is imported by [graph/workflow.py] from
    [graph/nodes.py], which does not define it: the node is a parameter. *)
Variable intelligent_retry_node : CommandState -> update.

Variable w : world.

(** After node [n] returned [u]: merge, then follow the edge out of [n]. *)
Definition advance (n : node) (u : update) (c : config) : config :=
  let state := apply_update red u (c_state c) in
  match next_node n state with
  | END => mkConfig (Done n) state (c_executed c)
  | n' => mkConfig (At n') state (c_executed c)
  end.

(** One step of the session at time [t]: the next node runs, or the human
    answers the pending confirmation and the graph resumes at the top of
    [await_confirmation_node]. *)
Definition step (t : nat) (c : config) : config :=
  let state := c_state c in
  match c_phase c with
  | At n_generate_command =>
      advance n_generate_command
        (generate_command_node state (generation_service w t)) c
  | At n_await_confirmation =>
      match await_confirmation_node state with
      | Update u => advance n_await_confirmation u c
      | Interrupt _ => mkConfig Suspended state (c_executed c)
      | Fault msg => mkConfig (Crashed msg) state (c_executed c)
      end
  | Suspended =>
      let '(confirmed, answer) := human w t in
      mkConfig (At n_await_confirmation)
               (apply_update red (human_update confirmed answer) state)
               (c_executed c)
  | At n_execute_command =>
      let r :=
        match exception_in_executor_call w t with
        | Some e => Raises e
        | None =>
            Returned (call_executor settings (on_windows w)
                        (operating_system w t) state)
        end in
      advance n_execute_command (execute_command_node state r)
        (mkConfig (c_phase c) state (c_executed c ++ [state]))
  | At n_validate_result =>
      advance n_validate_result
        (validate_result_node state (validation_service w t)) c
  | At n_analyze_content =>
      advance n_analyze_content (analyze_content_node (analysis w t state)) c
  | At n_present_result =>
      advance n_present_result (present_result_node state) c
  | At n_retry_node =>
      advance n_retry_node (retry_node state) c
  | At n_intelligent_retry =>
      advance n_intelligent_retry (intelligent_retry_node state) c
  | At n_try_alternative_shell =>
      advance n_try_alternative_shell
        (try_alternative_shell_node state (generation_service w t)) c
  | At END | Done _ | Crashed _ => c
  end.

(** [fuel] steps, the first at time [t]. *)
Fixpoint run (fuel t : nat) (c : config) : config :=
  match fuel with
  | O => c
  | S fuel' => run fuel' (S t) (step t c)
  end.

(** The session [execute_workflow] starts: [START] leads to
    [generate_command]. *)
Definition start (input : string) : config :=
  mkConfig (At n_generate_command) (initial_state settings input) [].

(** The configurations a session passes through. *)
Definition reachable (input : string) (c : config) : Prop :=
  exists fuel, run fuel 0 (start input) = c.

End Engine.

End Graph.

(* ================================================================== *)
(** ** Concrete sessions *)

Module Scenario.

Import Executor Graph.

(** Default settings, with [max_retries = n]. *)
Definition settings (n : Z) : Settings := mkSettings 30 1048576 n.

(** A stand-in for [intelligent_retry_node] in concrete runs. *)
Definition no_intelligent_retry : CommandState -> update := fun _ => [].

Definition list_files : generation_result :=
  mkGeneration "Get-ChildItem" "Lists the current directory" (Some "safe") [].

Definition wipe_windows : generation_result :=
  mkGeneration "Remove-Item -Recurse -Force C:\Windows"
               "Deletes the Windows folder" (Some "dangerous") [].

(** A world in which the generator answers [generated t] at step [t], the
    human always gives [answer], every process exits with code [rc] and
    the text "failed" on its error stream, and validation passes. *)
Definition session (generated : nat -> generation_result)
    (answer : bool * string) (rc : Z) : world :=
  mkWorld (fun t _ => Returned (generated t))
          (fun _ _ _ => Exited "" "failed" rc)
          (fun _ => None)
          (fun _ _ _ _ => Returned (mkValidation (Some true) "as intended" []))
          (fun _ _ => NothingToAnalyse)
          (fun _ => answer)
          true.

(** The same world with a generator that is down. *)
Definition generator_down (e : string) : world :=
  mkWorld (fun _ _ => Raises e)
          (fun _ _ _ => Exited "" "" 0)
          (fun _ => None)
          (fun _ _ _ _ => Returned (mkValidation (Some true) "as intended" []))
          (fun _ _ => NothingToAnalyse)
          (fun _ => (true, ""))
          true.

(** The session of [w] on the request "list files" after [fuel] steps. *)
Definition after (red : reducer) (retries : Z) (w : world) (fuel : nat)
  : config :=
  Graph.run red (settings retries) no_intelligent_retry w fuel 0
            (start (settings retries) "list files").

End Scenario.

(* ================================================================== *)
(** ** More of Python's [str] *)

Module Text.

(** [c.lower()] on the code points below 256: the ASCII capitals and the
    Latin-1 capitals (all of U+00C0 to U+00DE but the multiplication
    sign). *)
Definition lower_char (c : ascii) : ascii :=
  let n := nat_of_ascii c in
  if (Nat.leb 65 n && Nat.leb n 90)
     || (Nat.leb 192 n && Nat.leb n 214)
     || (Nat.leb 216 n && Nat.leb n 222)
  then ascii_of_nat (n + 32) else c.

(** [s.lower()] *)
Fixpoint lower (s : string) : string :=
  match s with
  | EmptyString => EmptyString
  | String c r => String (lower_char c) (lower r)
  end.

(** [s.lstrip()]: white space is what [str.isspace] accepts. *)
Fixpoint lstrip (s : string) : string :=
  match s with
  | EmptyString => EmptyString
  | String c r => if Re.is_space c then lstrip r else s
  end.

(** [s.rstrip()] *)
Fixpoint rstrip (s : string) : string :=
  match s with
  | EmptyString => EmptyString
  | String c r =>
      match rstrip r with
      | EmptyString => if Re.is_space c then EmptyString else String c EmptyString
      | r' => String c r'
      end
  end.

(** [s.strip()] *)
Definition strip (s : string) : string := rstrip (lstrip s).

(** [all(c.isspace() for c in s)] *)
Fixpoint all_space (s : string) : bool :=
  match s with
  | EmptyString => true
  | String c r => Re.is_space c && all_space r
  end.

(** The last character of a string, if any. *)
Fixpoint last_char (s : string) : option ascii :=
  match s with
  | EmptyString => None
  | String c EmptyString => Some c
  | String _ r => last_char r
  end.

(** [l[-n:]] on a list, with Python's slice rule: for a positive [n] the
    last [n] elements, for [n = 0] the whole list, for a negative [n] the
    list without its first [-n] elements. *)
Definition last_n {A : Type} (n : Z) (l : list A) : list A :=
  let len := Z.of_nat (List.length l) in
  let start := if (0 <? n)%Z then Z.max 0 (len - n) else Z.min (- n) len in
  skipn (Z.to_nat start) l.

End Text.

(* ================================================================== *)
(** ** [security/sanitizer.py] *)

Module Sanitizer.

Definition OUTPUT_MARKER : string :=
  String PyStr.LF "... (output truncated)".

Definition ERROR_MARKER : string :=
  String PyStr.LF "... (error message truncated)".

(** [sanitize_output(output, max_length)]; the default of [max_length] is
    10000. *)
Definition sanitize_output (output : string) (max_length : Z) : string :=
  if negb (PyStr.truthy output) then "(empty)"
  else if (Z.of_nat (String.length output) >? max_length)%Z
  then PyStr.slice_to max_length output ++ OUTPUT_MARKER
  else output.

(** [sanitize_error(error, max_length)]; the default of [max_length] is
    5000. *)
Definition sanitize_error (error : string) (max_length : Z) : string :=
  if negb (PyStr.truthy error) then "(no errors)"
  else if (Z.of_nat (String.length error) >? max_length)%Z
  then PyStr.slice_to max_length error ++ ERROR_MARKER
  else error.

(** [sanitize_user_input] *)
Definition sanitize_user_input (user_input : string) : string :=
  let sanitized := Text.strip user_input in
  if (Z.of_nat (String.length sanitized) >? 1000)%Z
  then PyStr.slice_to 1000 sanitized
  else sanitized.

End Sanitizer.

(* ================================================================== *)
(** ** [tools/failure_analyzer.py]: the pattern-based categorisation *)

Module FailureAnalyzer.

(** The strings [categorize_error] returns. *)
Inductive category : Type :=
| permission_denied | file_not_found | syntax_error | invalid_argument
| timeout | path_issue | command_not_found | general_error | unknown_error.

(** [FailureAnalyzer.categorize_error] *)
Definition categorize_error (error_output : string) (return_code : Z)
  : category :=
  let error_lower := Text.lower error_output in
  let has := fun keyword => PyStr.contains keyword error_lower in
  if has "access" || has "denied" || has "permission" then permission_denied
  else if has "not found" || has "cannot find" then file_not_found
  else if has "syntax" || has "unexpected token" then syntax_error
  else if has "invalid" || has "illegal" then invalid_argument
  else if has "timeout" || has "timed out" then timeout
  else if has "path" && (has "not" || has "invalid") then path_issue
  else if (return_code =? 127)%Z || has "not recognized" then command_not_found
  else if (return_code =? 1)%Z then general_error
  else unknown_error.

End FailureAnalyzer.

(* ================================================================== *)
(** ** [utils/conversation_memory.py]

    The conversations held in memory; the JSON file the class mirrors them
    to is left out. *)

Module Memory.

(** What [add_conversation] keeps of an execution result. *)
Record execution_summary : Type := mkSummary {
  status : Z;
  stdout_preview : string;
  stderr_preview : string
}.

(** The analysis dictionary handed to [add_conversation]: a dictionary
    that is not empty (an empty one counts as no analysis); either of
    the two keys read from it may be missing. *)
Record analysis_dict : Type := mkAnalysisDict {
  given_type : option string;
  given_analysis : option string
}.

(** What [add_conversation] keeps of an analysis result. *)
Record analysis_summary : Type := mkAnalysisSummary {
  analysis_type : option string;
  summary : string
}.

(** A stored conversation (its time stamp left out). *)
Record conversation : Type := mkConversation {
  user_input : string;
  generated_command : option string;
  execution_result : option execution_summary;
  analysis_result : option analysis_summary;
  metadata : list (string * string)
}.

(** [ConversationMemory]: [self.max_conversations] and the deque
    [self.conversations], oldest first.  [deque(maxlen=n)] refuses a
    negative [n], so the bound is a natural number. *)
Record ConversationMemory : Type := mkMemory {
  max_conversations : nat;
  conversations : list conversation
}.

(** [d.append(x)] on a [deque] with [maxlen]: nothing is kept when
    [maxlen] is 0; otherwise [x] is added on the right and, if the deque
    then exceeds [maxlen], its leftmost element is dropped. *)
Definition deque_append {A : Type} (maxlen : nat) (d : list A) (x : A)
  : list A :=
  if Nat.eqb maxlen 0 then d
  else
    let d' := (d ++ [x])%list in
    if Nat.ltb maxlen (List.length d') then tl d' else d'.

(** [deque(items, maxlen)] *)
Definition deque_of {A : Type} (maxlen : nat) (items : list A) : list A :=
  fold_left (deque_append maxlen) items [].

(** [ConversationMemory(max_conversations, enable_persistence=False)] *)
Definition new_memory (n : nat) : ConversationMemory := mkMemory n [].

(** The conversation dictionary [add_conversation] builds. *)
Definition make_conversation (input : string) (command : option string)
    (result : option Executor.result) (analysis : option analysis_dict)
    (meta : list (string * string)) : conversation :=
  mkConversation input command
    (option_map
       (fun r => mkSummary (Executor.return_code r)
                           (PyStr.slice_to 500 (Executor.stdout r))
                           (PyStr.slice_to 200 (Executor.stderr r)))
       result)
    (option_map
       (fun a => mkAnalysisSummary (given_type a)
                   (PyStr.slice_to 500
                      (match given_analysis a with Some t => t | None => "" end)))
       analysis)
    meta.

(** [ConversationMemory.add_conversation] *)
Definition add_conversation (self : ConversationMemory) (input : string)
    (command : option string) (result : option Executor.result)
    (analysis : option analysis_dict) (meta : list (string * string))
  : ConversationMemory :=
  mkMemory (max_conversations self)
    (deque_append (max_conversations self) (conversations self)
       (make_conversation input command result analysis meta)).

(** [ConversationMemory.clear_memory] *)
Definition clear_memory (self : ConversationMemory) : ConversationMemory :=
  mkMemory (max_conversations self) [].

(** What [load_from_disk] leaves in memory when the file holds
    [stored]. *)
Definition load (self : ConversationMemory) (stored : list conversation)
  : ConversationMemory :=
  mkMemory (max_conversations self) (deque_of (max_conversations self) stored).

(** The loop of [get_recent_commands] over the reversed deque. *)
Fixpoint recent_loop (count : Z) (reversed : list conversation)
    (commands : list string) : list string :=
  match reversed with
  | [] => commands
  | conv :: rest =>
      match generated_command conv with
      | Some command =>
          if PyStr.truthy command then
            let commands' := (commands ++ [command])%list in
            if (Z.of_nat (List.length commands') >=? count)%Z then commands'
            else recent_loop count rest commands'
          else recent_loop count rest commands
      | None => recent_loop count rest commands
      end
  end.

(** [ConversationMemory.get_recent_commands] *)
Definition get_recent_commands (self : ConversationMemory) (count : Z)
  : list string :=
  recent_loop count (rev (conversations self)) [].

(** The test of [search_conversations] on one conversation. *)
Definition mentions (keyword_lower : string) (conv : conversation) : bool :=
  PyStr.contains keyword_lower (Text.lower (user_input conv))
  || match generated_command conv with
     | Some command =>
         PyStr.truthy command
         && PyStr.contains keyword_lower (Text.lower command)
     | None => false
     end.

(** The loop of [search_conversations]. *)
Fixpoint search_loop (keyword_lower : string) (convs : list conversation)
    (matches : list conversation) : list conversation :=
  match convs with
  | [] => matches
  | conv :: rest =>
      if PyStr.contains keyword_lower (Text.lower (user_input conv))
      then search_loop keyword_lower rest (matches ++ [conv])
      else
        match generated_command conv with
        | Some command =>
            if PyStr.truthy command
               && PyStr.contains keyword_lower (Text.lower command)
            then search_loop keyword_lower rest (matches ++ [conv])
            else search_loop keyword_lower rest matches
        | None => search_loop keyword_lower rest matches
        end
  end.

(** [ConversationMemory.search_conversations] *)
Definition search_conversations (self : ConversationMemory) (keyword : string)
  : list conversation :=
  search_loop (Text.lower keyword) (conversations self) [].

(** A message for the chat API. *)
Record message : Type := mkMessage {
  role : string;
  content : string
}.

(** The lines of the assistant's answer [get_context_messages] builds for
    one conversation. *)
Definition assistant_content (conv : conversation) : list string :=
  let command_line :=
    match generated_command conv with
    | Some command =>
        if PyStr.truthy command then ["Generated command: " ++ command]
        else []
    | None => []
    end in
  let result_lines :=
    match execution_result conv with
    | Some result =>
        if (status result =? 0)%Z then
          "Command executed successfully"
          :: (if PyStr.truthy (stdout_preview result)
              then ["Output: " ++ stdout_preview result] else [])
        else []
    | None => []
    end in
  let analysis_line :=
    match analysis_result conv with
    | Some a =>
        if PyStr.truthy (summary a) then ["Analysis: " ++ summary a]
        else []
    | None => []
    end in
  (command_line ++ result_lines ++ analysis_line)%list.

(** The messages of one conversation. *)
Definition messages_of (conv : conversation) : list message :=
  mkMessage "user" (user_input conv)
  :: match assistant_content conv with
     | [] => []
     | lines => [mkMessage "assistant" (PyStr.join (String PyStr.LF "") lines)]
     end.

(** [ConversationMemory.get_context_messages] *)
Definition get_context_messages (self : ConversationMemory)
    (include_last_n : Z) : list message :=
  match conversations self with
  | [] => []
  | _ => flat_map messages_of (Text.last_n include_last_n (conversations self))
  end.

(** The memory holds no more conversations than its bound. *)
Definition well_sized (self : ConversationMemory) : Prop :=
  List.length (conversations self) <= max_conversations self.

(** The command of a conversation, if it has one that is not empty. *)
Definition command_of (conv : conversation) : list string :=
  match generated_command conv with
  | Some command => if PyStr.truthy command then [command] else []
  | None => []
  end.

(** The commands in memory that are not empty, newest first. *)
Definition commands_newest_first (self : ConversationMemory) : list string :=
  flat_map command_of (rev (conversations self)).

(** The message is one of the user's. *)
Definition is_user (m : message) : bool := String.eqb (role m) "user".

End Memory.

(* ================================================================== *)
(** ** [main.py]: one round of the interactive loop *)

Module Cli.

(** What one round of [run_interactive_loop] does with the line typed at
    the prompt. *)
Inductive action : Type :=
| Goodbye                            (* [break] *)
| VoiceUnavailable                   (* voice asked for, not enabled *)
| NothingHeard                       (* voice input gave nothing *)
| DisplayHistory
| ClearHistory (memory_enabled : bool)
| InvalidRequest                     (* empty after sanitising *)
| RunWorkflow (request : string).    (* [execute_workflow(request)] *)

(** [user_input.lower() in words] *)
Definition is_one_of (words : list string) (user_input : string) : bool :=
  existsb (String.eqb (Text.lower user_input)) words.

(** The part of the round after the voice command was handled. *)
Definition after_voice (memory_enabled : bool) (user_input : string)
  : action :=
  if is_one_of ["/history"; "/h"; "history"] user_input then DisplayHistory
  else if is_one_of ["/clear"; "/c"; "clear"] user_input
  then ClearHistory memory_enabled
  else
    let user_input := Sanitizer.sanitize_user_input user_input in
    if negb (PyStr.truthy user_input) then InvalidRequest
    else RunWorkflow user_input.

(** [Prompt.ask(...)] of rich as it is called here, without default and
    without choices: the line read from the terminal, stripped of the
    white space around it. *)
Definition prompt_ask (line : string) : string := Text.strip line.

(** The body of the [while True] loop; [line] is the line the user types
    at the prompt and [spoken] what [get_voice_input] returns when it is
    called. *)
Definition loop_body (voice_enabled memory_enabled : bool)
    (line : string) (spoken : option string) : action :=
  let user_input := prompt_ask line in
  if is_one_of ["exit"; "quit"; "q"] user_input then Goodbye
  else if is_one_of ["/voice"; "/v"; "voice"] user_input then
    if negb voice_enabled then VoiceUnavailable
    else if negb (PyStr.truthy_opt spoken) then NothingHeard
    else
      after_voice memory_enabled
        (match spoken with Some text => text | None => "" end)
  else after_voice memory_enabled user_input.

End Cli.

(* ================================================================== *)
(** ** Further observations on sessions *)

Module Session.

Import Executor Graph.

(** The pair writes [retry_count]. *)
Definition writes_retry_count (a : assignment) : bool :=
  match a with
  | Set_retry_count _ => true
  | _ => false
  end.


(** The safety assessment in the state allows the command. *)
Definition allowed (state : CommandState) : bool :=
  match safety_assessment state with
  | Some sa => allow sa
  | None => false
  end.

(** [user_confirmed] is [True]. *)
Definition confirmed (state : CommandState) : bool :=
  truthy_bool (user_confirmed state).

(** The stages before the first execution. *)
Definition before_execution (p : phase) : bool :=
  match p with
  | At n_generate_command | At n_await_confirmation | At n_retry_node
  | Suspended => true
  | _ => false
  end.

(** The stages from the first execution on. *)
Definition after_confirmation (p : phase) : bool :=
  match p with
  | At n_execute_command | At n_try_alternative_shell | At n_validate_result
  | At n_analyze_content | At n_present_result => true
  | _ => false
  end.




(** What every configuration of a session satisfies about confirmation
    and execution (proved below). *)
Definition confirmation_invariant (c : config) : Prop :=
  let state := c_state c in
  (populated (safety_assessment state) = true ->
   populated (generated_command state) = true)
  /\ (forall st, In st (c_executed c) ->
        user_confirmed st = Some true
        /\ populated (generated_command st) = true)
  /\ (forall st, hd_error (c_executed c) = Some st -> allowed st = true)
  /\ (before_execution (c_phase c) = true -> c_executed c = [])
  /\ (after_confirmation (c_phase c) = true ->
      user_confirmed state = Some true
      /\ populated (generated_command state) = true
      /\ (c_executed c = [] ->
          allowed state = true /\ c_phase c = At n_execute_command))
  /\ match c_phase c with
     | At n_generate_command | At n_retry_node => confirmed state = false
     | At n_await_confirmation =>
         confirmed state = true ->
         allowed state = true /\ populated (generated_command state) = true
     | Suspended =>
         user_confirmed state = None /\ allowed state = true
     | _ => True
     end.

(** What every configuration of a session satisfies about the retry
    count (proved below). *)
Definition retry_invariant (settings : Settings) (c : config) : Prop :=
  let state := c_state c in
  max_retries state = settings_max_retries settings
  /\ match c_phase c with
     | Done n_retry_node =>
         retry_count state = Z.max (max_retries state) 1
         /\ error_message state = Some "Maximum retries exceeded"
     | _ =>
         retry_count state = 0%Z
         \/ (0 < retry_count state < max_retries state)%Z
     end.

End Session.

(* ================================================================== *)
(** * Properties *)

(** ** The safety gate *)

(** Every pattern of the two tables lies in the fragment [Re.compile]
    reads. *)
Lemma tables_compile :
  forallb (fun p => match Re.compile p with Some _ => true | None => false end)
          (Safety.DANGEROUS_PATTERNS ++ Safety.SUSPICIOUS_PATTERNS) = true.
Proof. reflexivity. Qed.

(** *** The two loops of [assess] *)

Section ScanFacts.
Variable msg : string -> string.
Variable command : string.

Lemma scan_filter (patterns matched warnings : list string) :
  Safety.scan msg patterns command matched warnings
  = (matched ++ filter (fun p => Re.search p command) patterns,
     warnings ++ map msg (filter (fun p => Re.search p command) patterns))%list.
Proof.
  revert matched warnings.
  induction patterns as [|p rest IH]; intros matched warnings; simpl.
  - now rewrite !app_nil_r.
  - destruct (Re.search p command); simpl.
    + rewrite IH, <- !app_assoc. reflexivity.
    + apply IH.
Qed.
End ScanFacts.

Lemma filter_nil_existsb {A} (f : A -> bool) (l : list A) :
  filter f l = [] <-> existsb f l = false.
Proof.
  induction l as [|a l IH]; simpl; [tauto|].
  destruct (f a); simpl; [split; discriminate | exact IH].
Qed.

(** *** [re.IGNORECASE] *)

Lemma atom_matches_lower (a : Re.atom) (c : ascii) :
  Re.atom_matches a (PyStr.lower_ascii c) = Re.atom_matches a c.
Proof.
  destruct a as [x| |]; cbn [Re.atom_matches].
  - f_equal. destruct c as [[] [] [] [] [] [] [] []]; reflexivity.
  - destruct c as [[] [] [] [] [] [] [] []]; reflexivity.
  - destruct c as [[] [] [] [] [] [] [] []]; reflexivity.
Qed.

Lemma match_here_lower (p : list Re.item) :
  forall s, Re.match_here p (PyStr.lower s) = Re.match_here p s.
Proof.
  induction p as [|[a q] p IH]; intros s; [reflexivity|].
  assert (STAR : forall t,
    (fix star (t : string) : bool :=
       Re.match_here p t ||
       match t with
       | String c t' => Re.atom_matches a c && star t'
       | EmptyString => false
       end) (PyStr.lower t)
    = (fix star (t : string) : bool :=
       Re.match_here p t ||
       match t with
       | String c t' => Re.atom_matches a c && star t'
       | EmptyString => false
       end) t).
  { induction t as [|c t IHt].
    - reflexivity.
    - cbn [PyStr.lower]. rewrite <- (IH (String c t)). cbn [PyStr.lower].
      rewrite atom_matches_lower, IHt. reflexivity. }
  destruct q; cbn [Re.match_here].
  - destruct s as [|c s]; cbn [PyStr.lower]; [reflexivity|].
    now rewrite atom_matches_lower, IH.
  - apply STAR.
  - destruct s as [|c s]; cbn [PyStr.lower]; [reflexivity|].
    now rewrite atom_matches_lower, STAR.
Qed.

Lemma search_lower (pattern s : string) :
  Re.search pattern (PyStr.lower s) = Re.search pattern s.
Proof.
  unfold Re.search. destruct (Re.compile pattern) as [p|]; [|reflexivity].
  induction s as [|c s IH].
  - reflexivity.
  - cbn [PyStr.lower Re.search_items]. rewrite <- IH.
    rewrite <- (match_here_lower p (String c s)). reflexivity.
Qed.

(** C2.  For every command string: if some dangerous pattern matches, the
    verdict is [dangerous] with [allow = false], whatever the suspicious
    patterns would say, and [matched_patterns] and the warnings list the
    matching dangerous patterns only; if no dangerous but some suspicious
    pattern matches, the verdict is [suspicious] with [allow = true]; if
    nothing matches it is [safe] with [allow = true].  Matching ignores the
    case of the command. *)
Theorem C2_assess_classifies (self : Safety.CommandFilter) (command : string) :
  let hit := fun pattern => Re.search pattern command in
  let r := Safety.assess self command in
  (existsb hit (Safety.dangerous_patterns self) = true ->
     Safety.a_level r = Safety.dangerous /\ Safety.a_allow r = false /\
     Safety.matched_patterns r = filter hit (Safety.dangerous_patterns self) /\
     Safety.a_warnings r
     = map Safety.danger_msg (filter hit (Safety.dangerous_patterns self)))
  /\ (existsb hit (Safety.dangerous_patterns self) = false ->
      existsb hit (Safety.suspicious_patterns self) = true ->
      Safety.a_level r = Safety.suspicious /\ Safety.a_allow r = true /\
      Safety.matched_patterns r = filter hit (Safety.suspicious_patterns self) /\
      Safety.a_warnings r
      = map Safety.caution_msg (filter hit (Safety.suspicious_patterns self)))
  /\ (existsb hit (Safety.dangerous_patterns self) = false ->
      existsb hit (Safety.suspicious_patterns self) = false ->
      r = Safety.mkAssessment Safety.safe [] [] true)
  /\ Safety.assess self (PyStr.lower command) = r.
Proof.
  intros hit r. subst r. unfold Safety.assess.
  rewrite !scan_filter. cbn [app].
  rewrite !(filter_ext _ hit (fun p => search_lower p command)).
  change (fun p => Re.search p command) with hit.
  destruct (filter hit (Safety.dangerous_patterns self)) as [|d ds] eqn:D.
  - apply filter_nil_existsb in D. rewrite D.
    destruct (filter hit (Safety.suspicious_patterns self)) as [|s ss] eqn:S.
    + apply filter_nil_existsb in S. rewrite S.
      repeat split; intros; try discriminate; reflexivity.
    + assert (existsb hit (Safety.suspicious_patterns self) = true) as S'.
      { destruct (existsb hit (Safety.suspicious_patterns self)) eqn:E;
          [reflexivity|]. apply filter_nil_existsb in E. congruence. }
      rewrite S'. repeat split; intros; try discriminate; reflexivity.
  - assert (existsb hit (Safety.dangerous_patterns self) = true) as D'.
    { destruct (existsb hit (Safety.dangerous_patterns self)) eqn:E;
        [reflexivity|]. apply filter_nil_existsb in E. congruence. }
    rewrite D'. cbn [app]. rewrite !app_nil_r.
    repeat split; intros; try discriminate; reflexivity.
Qed.

(** Scenario A of the specification and its neighbours: a recursive forced
    delete is dangerous although [Remove-Item] is a suspicious pattern too;
    killing a process is suspicious; listing a directory is safe. *)
Lemma C2_assess_classifies_witness :
  (let r := Safety.assess Safety.new_filter
              "Remove-Item -Recurse -Force C:\Windows" in
   Safety.a_level r = Safety.dangerous /\ Safety.a_allow r = false)
  /\ (let r := Safety.assess Safety.new_filter "stop-process -Name notepad" in
      Safety.a_level r = Safety.suspicious /\ Safety.a_allow r = true)
  /\ Safety.assess Safety.new_filter "Get-ChildItem"
     = Safety.mkAssessment Safety.safe [] [] true.
Proof.
  split; [|split].
  - destruct (C2_assess_classifies Safety.new_filter
                "Remove-Item -Recurse -Force C:\Windows") as [H _].
    destruct (H eq_refl) as (L & A & _). split; [exact L | exact A].
  - destruct (C2_assess_classifies Safety.new_filter
                "stop-process -Name notepad") as (_ & H & _).
    destruct (H eq_refl eq_refl) as (L & A & _). split; [exact L | exact A].
  - destruct (C2_assess_classifies Safety.new_filter "Get-ChildItem")
      as (_ & _ & H & _).
    exact (H eq_refl eq_refl).
Defined.

(* ================================================================== *)
(** ** The Process Executor *)

Section ExecutorFacts.

Import Executor.

Variable self : PowerShellExecutor.
Variable windows : bool.
Variable os : list string -> Z -> run_outcome.
Variable command : string.
Variable t : option Z.

Local Abbreviation argv_for s := (argv_in windows s command).
Local Abbreviation result_of s := (execute_in self windows s command t os).

Lemma result_of_run (s : shell) :
  exists tag,
    result_of s
    = run self tag (timeout_or t (timeout self))
          (os (argv_for s) (timeout_or t (timeout self))).
Proof.
  destruct s; [exists None | exists (Some "cmd") | exists (Some "bash")];
    reflexivity.
Qed.

(** C5.  Whatever the method ([execute], [execute_cmd], [execute_bash]): when
    the time limit elapses the returned dictionary has [timed_out = True]
    and [return_code = -1]; when the launch raises, the method still
    returns a dictionary, with [return_code = -1] and the text of the
    exception in [stderr]. *)
Theorem C5_timeout_and_launch_failure (s : shell) :
  let limit := timeout_or t (timeout self) in
  (os (argv_for s) limit = TimedOut ->
     timed_out (result_of s) = true /\ return_code (result_of s) = (-1)%Z)
  /\ (forall msg, os (argv_for s) limit = Raised msg ->
        return_code (result_of s) = (-1)%Z /\ stderr (result_of s) = msg
        /\ error (result_of s) = Some msg /\ timed_out (result_of s) = false).
Proof.
  intros limit. destruct (result_of_run s) as [tag ->]. fold limit.
  split.
  - intros ->. split; reflexivity.
  - intros msg ->. repeat split; reflexivity.
Qed.

Lemma length_substring_0 (n : nat) (text : string) :
  n <= String.length text -> String.length (substring 0 n text) = n.
Proof.
  revert text. induction n as [|n IH]; intros [|c text] H; simpl in *;
    try reflexivity; try lia.
  rewrite IH; [reflexivity | lia].
Qed.

Lemma length_append (a b : string) :
  String.length (a ++ b) = String.length a + String.length b.
Proof. induction a as [|c a IH]; simpl; [reflexivity | now rewrite IH]. Qed.

(** [truncate] under a ceiling that is not negative. *)
Lemma truncate_spec (marker text : string) :
  (0 <= max_output_size self)%Z ->
  truncate self marker text
  = if (Z.of_nat (String.length text) <=? max_output_size self)%Z
    then text
    else substring 0 (Z.to_nat (max_output_size self)) text ++ marker.
Proof.
  intros H. unfold truncate, PyStr.slice_to.
  destruct (Z.gtb_spec (Z.of_nat (String.length text)) (max_output_size self))
    as [G|G].
  - destruct (Z.leb_spec (Z.of_nat (String.length text)) (max_output_size self));
      [lia|].
    destruct (Z.ltb_spec (max_output_size self) 0); [lia|].
    rewrite Z.min_l by lia. reflexivity.
  - destruct (Z.leb_spec (Z.of_nat (String.length text)) (max_output_size self));
      [reflexivity | lia].
Qed.

(** C9, as the code has it.  The ceiling counts the characters of the
    decoded text, not bytes.  When the process ran to its end, [stdout]
    and [stderr] are cut independently of each other: a stream of at most
    [max_output_size] characters is returned as it is, whatever its size
    in bytes; of a longer one the first [max_output_size] characters are
    kept and the stream's marker is appended.  After a timeout [stdout]
    is empty and the timeout message is cut in the same way.  When the
    launch raises, the text of the exception is returned in [stderr]
    without being cut. *)
Theorem C9_ceiling_counts_characters (s : shell) :
  (0 <= max_output_size self)%Z ->
  let ceiling := max_output_size self in
  let limit := timeout_or t (timeout self) in
  let cut (marker text : string) :=
    if (Z.of_nat (String.length text) <=? ceiling)%Z then text
    else substring 0 (Z.to_nat ceiling) text ++ marker in
  let stdout_marker := String "010"%char "... (output truncated)" in
  let stderr_marker := String "010"%char "... (error output truncated)" in
  (forall out err rc,
     os (argv_for s) limit = Exited out err rc ->
     stdout (result_of s) = cut stdout_marker out
     /\ stderr (result_of s) = cut stderr_marker err
     /\ ((Z.of_nat (String.length out) <= ceiling)%Z ->
         stdout (result_of s) = out
         /\ size_in_bytes (stdout (result_of s)) = size_in_bytes out)
     /\ ((Z.of_nat (String.length err) <= ceiling)%Z ->
         stderr (result_of s) = err
         /\ size_in_bytes (stderr (result_of s)) = size_in_bytes err)
     /\ ((ceiling < Z.of_nat (String.length out))%Z ->
         String.length (stdout (result_of s)) = Z.to_nat ceiling + 23)
     /\ ((ceiling < Z.of_nat (String.length err))%Z ->
         String.length (stderr (result_of s)) = Z.to_nat ceiling + 29))
  /\ (os (argv_for s) limit = TimedOut ->
      stdout (result_of s) = ""
      /\ stderr (result_of s) = cut stderr_marker (timeout_text limit))
  /\ (forall msg,
        os (argv_for s) limit = Raised msg ->
        stdout (result_of s) = "" /\ stderr (result_of s) = msg).
Proof.
  intros H ceiling limit cut stdout_marker stderr_marker.
  destruct (result_of_run s) as [tag ->]. fold limit.
  split; [|split].
  - intros out err rc ->. cbn [run stdout stderr].
    rewrite !truncate_spec by exact H. fold ceiling.
    change STDOUT_MARKER with stdout_marker.
    change STDERR_MARKER with stderr_marker.
    fold (cut stdout_marker out) (cut stderr_marker err).
    split; [reflexivity|]. split; [reflexivity|]. unfold cut.
    split; [|split; [|split]]; intros L.
    + destruct (Z.leb_spec (Z.of_nat (String.length out)) ceiling);
        [split; reflexivity | lia].
    + destruct (Z.leb_spec (Z.of_nat (String.length err)) ceiling);
        [split; reflexivity | lia].
    + destruct (Z.leb_spec (Z.of_nat (String.length out)) ceiling); [lia|].
      rewrite length_append, length_substring_0 by lia. reflexivity.
    + destruct (Z.leb_spec (Z.of_nat (String.length err)) ceiling); [lia|].
      rewrite length_append, length_substring_0 by lia. reflexivity.
  - intros ->. cbn [run stdout stderr].
    rewrite !truncate_spec by exact H. fold ceiling.
    split; [|reflexivity].
    destruct (Z.leb_spec (Z.of_nat (String.length "")) ceiling) as [L|L];
      [reflexivity | cbn in L; lia].
  - intros msg ->. split; reflexivity.
Qed.

End ExecutorFacts.

(** A PowerShell run that exceeds its limit, and a bash launch that fails
    because the interpreter is missing. *)
Lemma C5_timeout_and_launch_failure_witness :
  let self := Executor.mkExecutor 30 1048576 in
  let os := fun (argv : list string) (_ : Z) =>
    match argv with
    | "powershell.exe" :: _ => Executor.TimedOut
    | _ => Executor.Raised "[Errno 2] No such file or directory: 'bash'"
    end in
  (let r := Executor.execute self "Start-Sleep 60" None os in
   Executor.timed_out r = true /\ Executor.return_code r = (-1)%Z)
  /\ (let r := Executor.execute_bash self false "ls" (Some 5%Z) os in
      Executor.return_code r = (-1)%Z
      /\ Executor.stderr r = "[Errno 2] No such file or directory: 'bash'").
Proof.
  intros self os. split.
  - exact (proj1 (C5_timeout_and_launch_failure self false os
                    "Start-Sleep 60" None Executor.powershell) eq_refl).
  - destruct (proj2 (C5_timeout_and_launch_failure self false os
                       "ls" (Some 5%Z) Executor.bash) _ eq_refl) as (A & B & _).
    split; [exact A | exact B].
Defined.

(** A process writes the six bytes of three accented letters (code
    point 233, two bytes each in UTF-8) under a ceiling of four: the
    stream comes back whole.  Eight ASCII letters under the same ceiling
    are cut after four. *)
Lemma C9_ceiling_counts_characters_witness :
  let self := Executor.mkExecutor 30 4 in
  let accented := String "233"%char (String "233"%char (String "233"%char "")) in
  let os := fun (_ : list string) (_ : Z) =>
    Executor.Exited accented "abcdefgh" 0 in
  let r := Executor.execute self "type notes.txt" None os in
  Executor.size_in_bytes accented = 6
  /\ Executor.stdout r = accented
  /\ Executor.size_in_bytes (Executor.stdout r) = 6
  /\ Executor.stderr r
     = "abcd" ++ String "010"%char "... (error output truncated)".
Proof.
  intros self accented os r.
  destruct (proj1 (C9_ceiling_counts_characters self false os
                     "type notes.txt" None Executor.powershell
                     ltac:(cbn; lia))
              accented "abcdefgh" 0%Z eq_refl)
    as (_ & B & C & _).
  destruct (C ltac:(cbn; lia)) as (C1 & C2).
  exact (conj eq_refl (conj C1 (conj C2 B))).
Defined.

(* ================================================================== *)
(** ** The workflow *)

Section WorkflowFacts.

Import Executor Graph.

Variable red : reducer.
Variable settings : Settings.
Variable intelligent_retry_node : CommandState -> update.
Variable w : world.

Local Abbreviation step := (Graph.step red settings intelligent_retry_node w).
Local Abbreviation run := (Graph.run red settings intelligent_retry_node w).

(** The phase and state [advance] leaves. *)
Lemma advance_state (n : node) (u : update) (c : config) :
  c_state (advance red n u c) = apply_update red u (c_state c)
  /\ c_executed (advance red n u c) = c_executed c
  /\ c_phase (advance red n u c)
     = match next_node n (apply_update red u (c_state c)) with
       | END => Done n
       | n' => At n'
       end.
Proof.
  unfold advance.
  destruct (next_node n (apply_update red u (c_state c))); repeat split.
Qed.

(** C4, as the code has it.  A visit to the Retry stage adds exactly one to
    [retry_count]; with the new count at or above [max_retries] the session
    ends with the error "Maximum retries exceeded", below it the session
    goes back to Generate with the feedback kept. *)
Theorem C4_retry_counts_then_routes (state : CommandState) :
  let state' := apply_update red (retry_node state) state in
  retry_count state' = (retry_count state + 1)%Z
  /\ max_retries state' = max_retries state
  /\ user_feedback state' = user_feedback state
  /\ ((retry_count state + 1 >= max_retries state)%Z ->
      next_node n_retry_node state' = END
      /\ error_message state' = Some "Maximum retries exceeded"
      /\ next_step state' = ns_end)
  /\ ((retry_count state + 1 < max_retries state)%Z ->
      next_node n_retry_node state' = n_generate_command
      /\ error_message state' = error_message state
      /\ next_step state' = ns_generate).
Proof.
  destruct state; unfold retry_node; cbn [Graph.retry_count Graph.max_retries].
  destruct (Z.geb_spec (retry_count0 + 1) max_retries0) as [G|G];
    cbn; unfold route_after_retry; cbn;
    (destruct (Z.ltb_spec (retry_count0 + 1) max_retries0); [|]);
    repeat split; intros; try reflexivity; lia.
Qed.

(** C3, as the code has it.  A failed generation asks for the end
    ([next_step = "end"]) and records a generation error, yet the edge out
    of [generate_command] is unconditional: the confirmation stage runs
    next. *)
Theorem C3_failed_generation_goes_to_confirmation
    (c : config) (t : nat) (e : string) :
  c_phase c = At n_generate_command ->
  generation_service w t (user_input (c_state c)) = Raises e ->
  c_phase (step t c) = At n_await_confirmation
  /\ next_step (c_state (step t c)) = ns_end
  /\ error_message (c_state (step t c)) = Some e
  /\ error_type (c_state (step t c)) = Some "generation_error"
  /\ safety_assessment (c_state (step t c)) = safety_assessment (c_state c).
Proof.
  intros P G. unfold Graph.step. rewrite P.
  unfold generate_command_node. rewrite G.
  destruct c as [ph st ex]; destruct st; cbn. repeat split.
Qed.

(** On a fresh session the confirmation stage then raises: there is no
    safety assessment to read. *)
Lemma failed_first_generation_crashes (input e : string) :
  generation_service w 0 input = Raises e ->
  c_phase (run 2 0 (start settings input))
  = Crashed "'NoneType' object is not subscriptable".
Proof.
  intros G. cbn [Graph.run]. unfold Graph.step at 2.
  cbn [start c_phase c_state initial_state user_input].
  unfold generate_command_node.
  cbn [initial_state user_input]. rewrite G. reflexivity.
Qed.

(** The executor node records the state it was invoked in. *)
Lemma step_execute_logs (c : config) (t : nat) :
  c_phase c = At n_execute_command ->
  c_executed (step t c) = (c_executed c ++ [c_state c])%list.
Proof.
  intros P. unfold Graph.step. rewrite P.
  match goal with
  | |- c_executed (advance _ ?n ?u ?c0) = _ =>
      destruct (advance_state n u c0) as (_ & E & _); rewrite E
  end.
  reflexivity.
Qed.

(** [find] over [shell_order] when every shell was attempted. *)
Lemma no_untried_shell (attempted : list shell) :
  (forall s, shell_in s attempted = true) ->
  find (fun s => negb (shell_in s attempted)) shell_order = None.
Proof.
  intros A. unfold shell_order. cbn. rewrite !A. reflexivity.
Qed.

(** C6, as the code has it.  With every shell attempted the node records
    "Execution failed in all shells: ..." and asks for Present, leaving the
    execution result of the last attempt in place; the edge out of
    [try_alternative_shell] is unconditional, so the executor runs once
    more. *)
Theorem C6_exhausted_shells_execute_again (c : config) (t : nat) :
  c_phase c = At n_try_alternative_shell ->
  (forall s, shell_in s (attempted_shells (c_state c)) = true) ->
  let c' := step t c in
  error_message (c_state c')
  = Some ("Execution failed in all shells: "
          ++ PyStr.join ", " (map shell_name (attempted_shells (c_state c))))
  /\ next_step (c_state c') = ns_present
  /\ execution_result (c_state c') = execution_result (c_state c)
  /\ c_phase c' = At n_execute_command
  /\ c_executed (step (S t) c') = (c_executed c ++ [c_state c'])%list.
Proof.
  intros P A c'.
  assert (c' = mkConfig (At n_execute_command)
                 (apply_update red
                    [ Set_error_message
                        ("Execution failed in all shells: "
                         ++ PyStr.join ", "
                              (map shell_name (attempted_shells (c_state c))));
                      Set_next_step ns_present ] (c_state c))
                 (c_executed c)) as E.
  { subst c'. unfold Graph.step. rewrite P.
    unfold try_alternative_shell_node. rewrite (no_untried_shell _ A).
    reflexivity. }
  rewrite step_execute_logs by (rewrite E; reflexivity).
  rewrite E. destruct c as [ph st ex]; destruct st; cbn. repeat split.
Qed.

End WorkflowFacts.

(* ================================================================== *)
(** ** What an update can and cannot change *)

Section UpdateFacts.

Import Executor Graph.

Variable red : reducer.

Lemma assign_keeps_outcome (state : CommandState) (a : assignment) :
  (populated (execution_result state) = true ->
   populated (execution_result (assign red state a)) = true)
  /\ (populated (error_message state) = true ->
      populated (error_message (assign red state a)) = true).
Proof. destruct state, a; cbn; auto. Qed.

Lemma apply_keeps_result (u : update) : forall state,
  populated (execution_result state) = true ->
  populated (execution_result (apply_update red u state)) = true.
Proof.
  induction u as [|a u IH]; intros state H; [exact H|].
  apply IH, assign_keeps_outcome, H.
Qed.

Lemma apply_keeps_error (u : update) : forall state,
  populated (error_message state) = true ->
  populated (error_message (apply_update red u state)) = true.
Proof.
  induction u as [|a u IH]; intros state H; [exact H|].
  apply IH, assign_keeps_outcome, H.
Qed.

Lemma apply_keeps_outcome (u : update) (state : CommandState) :
  has_outcome state = true -> has_outcome (apply_update red u state) = true.
Proof.
  unfold has_outcome. rewrite !orb_true_iff.
  intros [H|H]; [left; apply apply_keeps_result | right; apply apply_keeps_error];
    exact H.
Qed.

Lemma apply_writes_result (r : result) (u : update) : forall state,
  In (Set_execution_result r) u ->
  populated (execution_result (apply_update red u state)) = true.
Proof.
  induction u as [|a u IH]; intros state I; [destruct I | destruct I as [E|I]].
  - subst a.
    change (apply_update red (Set_execution_result r :: u) state)
      with (apply_update red u (assign red state (Set_execution_result r))).
    apply apply_keeps_result. destruct state; reflexivity.
  - apply IH, I.
Qed.

Lemma apply_writes_error (e : string) (u : update) : forall state,
  In (Set_error_message e) u ->
  populated (error_message (apply_update red u state)) = true.
Proof.
  induction u as [|a u IH]; intros state I; [destruct I | destruct I as [E|I]].
  - subst a.
    change (apply_update red (Set_error_message e :: u) state)
      with (apply_update red u (assign red state (Set_error_message e))).
    apply apply_keeps_error. destruct state; reflexivity.
  - apply IH, I.
Qed.

Lemma assign_next_step (state : CommandState) (a : assignment) :
  asks_intelligent_retry a = false ->
  next_step state <> ns_intelligent_retry ->
  next_step (assign red state a) <> ns_intelligent_retry.
Proof.
  destruct state, a; cbn; auto. destruct v; intros; discriminate.
Qed.

Lemma apply_next_step (u : update) : forall state,
  existsb asks_intelligent_retry u = false ->
  next_step state <> ns_intelligent_retry ->
  next_step (apply_update red u state) <> ns_intelligent_retry.
Proof.
  induction u as [|a u IH]; intros state E H; [exact H|].
  cbn in E. apply orb_false_iff in E as [Ea Eu].
  apply IH; [exact Eu | apply assign_next_step; assumption].
Qed.

(** No node of [graph/nodes.py] writes ["intelligent_retry"]. *)
Lemma nodes_never_ask_intelligent_retry (state : CommandState) :
  (forall generate,
     existsb asks_intelligent_retry (generate_command_node state generate) = false)
  /\ (forall u, await_confirmation_node state = Update u ->
        existsb asks_intelligent_retry u = false)
  /\ (forall confirmed answer,
        existsb asks_intelligent_retry (human_update confirmed answer) = false)
  /\ (forall r,
        existsb asks_intelligent_retry (execute_command_node state r) = false)
  /\ (forall validate,
        existsb asks_intelligent_retry (validate_result_node state validate) = false)
  /\ (forall o, existsb asks_intelligent_retry (analyze_content_node o) = false)
  /\ existsb asks_intelligent_retry (present_result_node state) = false
  /\ existsb asks_intelligent_retry (retry_node state) = false
  /\ (forall generate,
        existsb asks_intelligent_retry (try_alternative_shell_node state generate)
        = false).
Proof.
  repeat split.
  - intros generate. unfold generate_command_node.
    destruct (generate _); [destruct (detect_analysis _)|]; reflexivity.
  - unfold await_confirmation_node.
    destruct (user_confirmed state); [intros u [= <-]; reflexivity|].
    destruct (safety_assessment state) as [sa|]; [|discriminate].
    destruct (negb (allow sa)); [intros u [= <-]; reflexivity | discriminate].
  - intros r. unfold execute_command_node.
    destruct r; repeat match goal with
                       | |- context [if ?b then _ else _] => destruct b
                       end; reflexivity.
  - intros validate. unfold validate_result_node.
    destruct (validate _ _ _); reflexivity.
  - intros []; reflexivity.
  - unfold retry_node. destruct (_ >=? _)%Z; reflexivity.
  - intros generate. unfold try_alternative_shell_node.
    destruct (find _ _); [|reflexivity].
    destruct (execution_result state); [destruct (generate _)|]; reflexivity.
Qed.

(** The edges lead to [intelligent_retry] only on that request. *)
Lemma next_node_intelligent_retry (n : node) (state : CommandState) :
  next_step state <> ns_intelligent_retry ->
  next_node n state <> n_intelligent_retry.
Proof.
  intros H. destruct n; cbn; try discriminate.
  - unfold route_after_confirmation.
    destruct (truthy_bool _); [discriminate|].
    destruct (PyStr.truthy_opt _); discriminate.
  - unfold route_after_execution.
    destruct (next_step state); try congruence;
      destruct (execution_status state); discriminate.
  - unfold route_after_validation. destruct (truthy_bool _); discriminate.
  - unfold route_after_retry. destruct (_ <? _)%Z; discriminate.
Qed.

End UpdateFacts.

(* ================================================================== *)
(** ** The invariant of a session *)

Section SessionInvariant.

Import Executor Graph.

Variable red : reducer.
Variable settings : Settings.
Variable intelligent_retry_node : CommandState -> update.
Variable w : world.

Local Abbreviation step := (Graph.step red settings intelligent_retry_node w).
Local Abbreviation run := (Graph.run red settings intelligent_retry_node w).

Lemma advance_invariant (n : node) (u : update) (c : config) :
  next_step (c_state c) <> ns_intelligent_retry ->
  existsb asks_intelligent_retry u = false ->
  target_ok n (apply_update red u (c_state c)) ->
  session_invariant (advance red n u c).
Proof.
  intros N U T. unfold session_invariant.
  destruct (advance_state red n u c) as (-> & _ & ->).
  pose proof (apply_next_step red u (c_state c) U N) as N'.
  split; [exact N'|].
  pose proof (next_node_intelligent_retry n _ N') as R.
  unfold target_ok in T.
  destruct (next_node n (apply_update red u (c_state c))); try exact T;
    try exact I. congruence.
Qed.

Lemma start_invariant (input : string) :
  session_invariant (start settings input).
Proof. split; [discriminate | exact I]. Qed.

Lemma outcome_target (n : node) (state : CommandState) :
  has_outcome state = true -> target_ok n state.
Proof.
  intros H. unfold target_ok. destruct (next_node n state); auto.
Qed.

(** The confirmation stage ends the session only on a refusal without
    feedback. *)
Lemma await_target (state : CommandState) (u : update) :
  await_confirmation_node state = Update u ->
  target_ok n_await_confirmation (apply_update red u state).
Proof.
  unfold await_confirmation_node. destruct state; cbn.
  destruct user_confirmed0 as [b|].
  - intros [= <-]. unfold target_ok; cbn -[PyStr.truthy_opt].
    unfold route_after_confirmation, rejected_without_feedback;
      cbn -[PyStr.truthy_opt].
    destruct b; cbn -[PyStr.truthy_opt]; [exact I|].
    destruct (PyStr.truthy_opt user_feedback0) eqn:F; [exact I|].
    right. split; reflexivity.
  - destruct safety_assessment0 as [sa|]; [|discriminate].
    destruct (negb (allow sa)); [|discriminate].
    intros [= <-]. exact I.
Qed.

(** The executor node always leaves a result or an error. *)
Lemma execute_outcome (state : CommandState) (r : reply result) :
  has_outcome (apply_update red (execute_command_node state r) state) = true.
Proof.
  unfold has_outcome. apply orb_true_iff. unfold execute_command_node.
  destruct r as [res|e].
  - left. destruct (_ && _);
      apply (apply_writes_result red res); cbn; auto.
  - right. destruct (negb _);
      apply (apply_writes_error red e); cbn; auto.
Qed.

(** The retry stage ends the session only with its error recorded. *)
Lemma retry_target (state : CommandState) :
  target_ok n_retry_node (apply_update red (retry_node state) state).
Proof.
  destruct state; unfold retry_node; cbn [Graph.retry_count Graph.max_retries].
  destruct (Z.geb_spec (retry_count0 + 1) max_retries0) as [G|G];
    unfold target_ok; cbn; unfold route_after_retry; cbn;
    destruct (Z.ltb_spec (retry_count0 + 1) max_retries0);
    try lia; try exact I.
  left. unfold has_outcome; cbn. apply orb_true_r.
Qed.

Lemma step_invariant (t : nat) (c : config) :
  session_invariant c -> session_invariant (step t c).
Proof.
  intros [N P]. pose proof (nodes_never_ask_intelligent_retry (c_state c))
    as (Ugen & Uawait & Uhuman & Uexec & Uval & Uana & Upres & Uretry & Ualt).
  unfold Graph.step.
  destruct (c_phase c) as [n| |from|msg] eqn:Ph.
  - destruct n.
    + (* generate_command *)
      apply advance_invariant; [exact N | apply Ugen | exact I].
    + (* await_confirmation *)
      destruct (await_confirmation_node (c_state c)) as [u|d|msg] eqn:A.
      * apply advance_invariant;
          [exact N | apply Uawait; reflexivity | apply await_target, A].
      * split; [exact N | exact I].
      * split; [exact N | exact I].
    + (* execute_command *)
      apply advance_invariant;
        [exact N | apply Uexec | apply outcome_target, execute_outcome].
    + (* validate_result *)
      apply advance_invariant;
        [exact N | apply Uval
        | apply outcome_target, apply_keeps_outcome, P].
    + (* present_result *)
      apply advance_invariant;
        [exact N | apply Upres
        | apply outcome_target, apply_keeps_outcome, P].
    + (* retry_node *)
      apply advance_invariant; [exact N | apply Uretry | apply retry_target].
    + (* intelligent_retry: never entered *)
      destruct P.
    + (* try_alternative_shell *)
      apply advance_invariant; [exact N | apply Ualt | exact I].
    + (* analyze_content *)
      apply advance_invariant;
        [exact N | apply Uana
        | apply outcome_target, apply_keeps_outcome, P].
    + split; [exact N|]. rewrite Ph. exact I.
  - destruct (human w t) as [confirmed answer].
    split; [|exact I]. apply apply_next_step; [apply Uhuman | exact N].
  - split; [exact N|]. rewrite Ph. exact P.
  - split; [exact N|]. rewrite Ph. exact P.
Qed.

Lemma run_invariant (fuel : nat) : forall (t : nat) (c : config),
  session_invariant c -> session_invariant (run fuel t c).
Proof.
  induction fuel as [|fuel IH]; intros t c H; [exact H|].
  apply IH, step_invariant, H.
Qed.

(** The request the executor node leaves is one of three. *)
Lemma execute_hint (state : CommandState) (r : reply result) :
  In (next_step (apply_update red (execute_command_node state r) state))
     [ns_try_alternative; ns_validate; ns_present].
Proof.
  unfold execute_command_node. destruct state, r as [res|e]; cbn.
  - destruct (_ && _); cbn; auto.
  - destruct (negb _); cbn; auto.
Qed.

Lemma returned_never_asks_intelligent_retry (state : CommandState) (u : update) :
  returned_by state u -> ~ In (Set_next_step ns_intelligent_retry) u.
Proof.
  intros R I.
  assert (existsb asks_intelligent_retry u = true) as E.
  { apply existsb_exists. eexists. split; [exact I | reflexivity]. }
  pose proof (nodes_never_ask_intelligent_retry state)
    as (Ugen & Uawait & Uhuman & Uexec & Uval & Uana & Upres & Uretry & Ualt).
  destruct R as [g|u A|b a|r|v|o| | |g];
    [ rewrite Ugen in E | rewrite (Uawait u A) in E | rewrite Uhuman in E
    | rewrite Uexec in E | rewrite Uval in E | rewrite Uana in E
    | rewrite Upres in E | rewrite Uretry in E | rewrite Ualt in E ];
    discriminate.
Qed.

(** C10.  In every configuration a session reaches, [next_step] is not
    ["intelligent_retry"] and the intelligent-retry stage is not the one
    to run.  No dictionary a node returns writes that value; the executor
    node leaves one of ["try_alternative"], ["validate"], ["present"], so
    [route_after_execution] does not answer ["intelligent_retry"] after
    it.  This holds whatever [intelligent_retry_node] would do. *)
Theorem C10_intelligent_retry_unreachable (input : string) (c : config) :
  reachable red settings intelligent_retry_node w input c ->
  next_step (c_state c) <> ns_intelligent_retry
  /\ c_phase c <> At n_intelligent_retry
  /\ (forall state u,
        returned_by state u -> ~ In (Set_next_step ns_intelligent_retry) u)
  /\ (forall state r,
        let state' := apply_update red (execute_command_node state r) state in
        In (next_step state') [ns_try_alternative; ns_validate; ns_present]
        /\ route_after_execution state' <> n_intelligent_retry).
Proof.
  intros [fuel <-].
  destruct (run_invariant fuel 0 _ (start_invariant input)) as [N P].
  split; [exact N | split; [|split]].
  - intros E. rewrite E in P. exact P.
  - apply returned_never_asks_intelligent_retry.
  - intros state r state'.
    pose proof (execute_hint state r) as H. fold state' in H.
    split; [exact H|].
    unfold route_after_execution.
    destruct (next_step state'); cbn in H;
      try (destruct (execution_status state'); discriminate);
      try discriminate.
    decompose [or] H; discriminate || contradiction.
Qed.

(** C8, as the code has it.  A session that has ended carries an execution
    result or an error message, unless it ended at the confirmation stage
    because the human refused the command without feedback. *)
Theorem C8_finished_session_outcome (input : string) (fuel : nat) (from : node) :
  c_phase (run fuel 0 (start settings input)) = Done from ->
  let state := c_state (run fuel 0 (start settings input)) in
  has_outcome state = true
  \/ (from = n_await_confirmation /\ rejected_without_feedback state = true).
Proof.
  intros D state.
  destruct (run_invariant fuel 0 _ (start_invariant input)) as [_ P].
  rewrite D in P. exact P.
Qed.

End SessionInvariant.

(* ================================================================== *)
(** ** The safety block *)

Section SafetyBlock.

Import Executor Graph.

Variable red : reducer.
Variable settings : Settings.
Variable intelligent_retry_node : CommandState -> update.
Variable w : world.

Local Abbreviation step := (Graph.step red settings intelligent_retry_node w).

(** C1, as the code has it.  At the confirmation stage a command whose
    assessment has [allow = False] is refused without asking the human and
    without running it, and the node asks for the end; it also records the
    feedback "Command blocked due to safety concerns", on which
    [route_after_confirmation] sends the session to the Retry stage, not
    to the end. *)
Theorem C1_blocked_command_goes_to_retry
    (c : config) (t : nat) (sa : assessment) :
  c_phase c = At n_await_confirmation ->
  user_confirmed (c_state c) = None ->
  safety_assessment (c_state c) = Some sa ->
  allow sa = false ->
  let c' := step t c in
  user_confirmed (c_state c') = Some false
  /\ next_step (c_state c') = ns_end
  /\ user_feedback (c_state c') = Some "Command blocked due to safety concerns"
  /\ c_executed c' = c_executed c
  /\ c_phase c' = At n_retry_node.
Proof.
  intros P U S A c'. subst c'. unfold Graph.step. rewrite P.
  unfold await_confirmation_node. rewrite U, S, A. cbn [negb].
  destruct c as [ph st ex]; destruct st; cbn. repeat split.
Qed.

Local Abbreviation run := (Graph.run red settings intelligent_retry_node w).

Lemma apply_keeps_user_confirmed (u : update) : forall state,
  existsb writes_user_confirmed u = false ->
  user_confirmed (apply_update red u state) = user_confirmed state.
Proof.
  induction u as [|a u IH]; intros state E; [reflexivity|].
  cbn in E. apply orb_false_iff in E as [Ea Eu].
  change (apply_update red (a :: u) state)
    with (apply_update red u (assign red state a)).
  rewrite (IH _ Eu). destruct state, a; try reflexivity; discriminate.
Qed.

(** After a refusal nothing is executed: the session only moves between
    Generate, the confirmation stage and Retry, or has ended. *)
Lemma step_refused (t : nat) (c : config) :
  refused c ->
  refused (step t c) /\ c_executed (step t c) = c_executed c.
Proof.
  intros [U P]. unfold Graph.step.
  destruct (c_phase c) as [n| |from|msg] eqn:Ph; try destruct n;
    try contradiction.
  - (* generate_command *)
    match goal with
    | |- context [advance _ ?n ?u c] =>
        destruct (advance_state red n u c) as (S & E & F);
        assert (existsb writes_user_confirmed u = false) as W
    end.
    { unfold generate_command_node.
      destruct (generation_service w t _);
        [destruct (detect_analysis _)|]; reflexivity. }
    split; [|exact E]. split.
    + rewrite S, apply_keeps_user_confirmed by exact W. exact U.
    + rewrite F. exact I.
  - (* await_confirmation *)
    unfold await_confirmation_node. rewrite U.
    match goal with
    | |- context [advance _ ?n ?u c] =>
        destruct (advance_state red n u c) as (S & E & F)
    end.
    assert (apply_update red [Set_confirmation_timestamp] (c_state c)
            = c_state c) as T by (destruct (c_state c); reflexivity).
    rewrite T in S, F.
    split; [|exact E]. split.
    + rewrite S. exact U.
    + rewrite F. cbn. unfold route_after_confirmation. rewrite U. cbn.
      destruct (PyStr.truthy_opt _); exact I.
  - (* retry_node *)
    match goal with
    | |- context [advance _ ?n ?u c] =>
        destruct (advance_state red n u c) as (S & E & F);
        assert (existsb writes_user_confirmed u = false) as W
    end.
    { unfold retry_node. destruct (_ >=? _)%Z; reflexivity. }
    split; [|exact E]. split.
    + rewrite S, apply_keeps_user_confirmed by exact W. exact U.
    + rewrite F. cbn. unfold route_after_retry.
      destruct (_ <? _)%Z; exact I.
  - split; [|reflexivity]. split; [exact U | rewrite Ph; exact I].
  - split; [|reflexivity]. split; [exact U | rewrite Ph; exact I].
Qed.

Lemma run_refused (fuel : nat) : forall (t : nat) (c : config),
  refused c ->
  refused (run fuel t c) /\ c_executed (run fuel t c) = c_executed c.
Proof.
  induction fuel as [|fuel IH]; intros t c R; [split; [exact R | reflexivity]|].
  destruct (step_refused t c R) as [R' E'].
  destruct (IH (S t) _ R') as [R'' E''].
  split; [exact R'' | cbn; congruence].
Qed.

(** On the path through the confirmation stage a blocked command is not
    executed, however long the session goes on. *)
Lemma blocked_command_is_never_executed
    (c : config) (t : nat) (sa : assessment) (fuel : nat) :
  c_phase c = At n_await_confirmation ->
  user_confirmed (c_state c) = None ->
  safety_assessment (c_state c) = Some sa ->
  allow sa = false ->
  c_executed (run (S fuel) t c) = c_executed c.
Proof.
  intros P U HS A.
  assert (refused (step t c) /\ c_executed (step t c) = c_executed c)
    as [R E].
  { unfold Graph.step. rewrite P.
    unfold await_confirmation_node. rewrite U, HS, A. cbn [negb].
    destruct c as [ph st ex]; destruct st; cbn. repeat split. }
  cbn [Graph.run]. destruct (run_refused fuel (S t) _ R) as [_ E'].
  congruence.
Qed.

End SafetyBlock.

(* ================================================================== *)
(** ** Sessions that show the behaviour *)

(** The first generated command is the recursive forced delete of scenario
    A: the confirmation stage refuses it and the session goes on to the
    Retry stage. *)
Lemma C1_blocked_command_goes_to_retry_witness :
  let c := Scenario.after Graph.OperatorAdd 3
             (Scenario.session (fun _ => Scenario.wipe_windows) (true, "") 0) 2 in
  Graph.user_confirmed (Graph.c_state c) = Some false
  /\ Graph.next_step (Graph.c_state c) = Graph.ns_end
  /\ Graph.c_executed c = []
  /\ Graph.c_phase c = Graph.At Graph.n_retry_node.
Proof.
  intros c.
  destruct (C1_blocked_command_goes_to_retry Graph.OperatorAdd
              (Scenario.settings 3) Scenario.no_intelligent_retry
              (Scenario.session (fun _ => Scenario.wipe_windows) (true, "") 0)
              (Scenario.after Graph.OperatorAdd 3
                 (Scenario.session (fun _ => Scenario.wipe_windows) (true, "") 0) 1)
              1
              (Graph.mkSA Safety.dangerous
                 [Safety.danger_msg "Remove-Item.*-Recurse.*-Force";
                  Safety.danger_msg "Remove-Item.*\\Windows"]
                 false (Some "dangerous")
                 ["Remove-Item.*-Recurse.*-Force"; "Remove-Item.*\\Windows"])
              eq_refl eq_refl eq_refl eq_refl)
    as (A & B & _ & D & E).
  exact (conj A (conj B (conj D E))).
Defined.

(** The shell fallback runs a command the safety gate refused: the
    PowerShell attempt fails, the generator answers the fallback request
    with the recursive forced delete, and the executor is invoked on it
    under cmd with [allow = False] in the state. *)
Lemma alternative_shell_runs_blocked_command :
  let w := Scenario.session
             (fun t => if Nat.eqb t 0 then Scenario.list_files
                       else Scenario.wipe_windows) (true, "") 1 in
  let c := Scenario.after Graph.OperatorAdd 3 w 7 in
  exists state,
    nth_error (Graph.c_executed c) 1 = Some state
    /\ Graph.shell_type state = Executor.cmd
    /\ Graph.generated_command state
       = Some "Remove-Item -Recurse -Force C:\Windows"
    /\ option_map Graph.allow (Graph.safety_assessment state) = Some false.
Proof.
  intros w c. vm_compute. eexists. repeat split.
Qed.

(** The generator is down on a fresh session: the failure is recorded and
    the confirmation stage runs next. *)
Lemma C3_failed_generation_goes_to_confirmation_witness :
  let c := Scenario.after Graph.OperatorAdd 3
             (Scenario.generator_down "Connection error.") 1 in
  Graph.c_phase c = Graph.At Graph.n_await_confirmation
  /\ Graph.next_step (Graph.c_state c) = Graph.ns_end
  /\ Graph.error_message (Graph.c_state c) = Some "Connection error.".
Proof.
  intros c.
  destruct (C3_failed_generation_goes_to_confirmation Graph.OperatorAdd
              (Scenario.settings 3) Scenario.no_intelligent_retry
              (Scenario.generator_down "Connection error.")
              (Graph.start (Scenario.settings 3) "list files") 0
              "Connection error." eq_refl eq_refl)
    as (A & B & C & _).
  exact (conj A (conj B C)).
Defined.

(** C4, the counterexample.  With [max_retries = 1] the first rejection
    with feedback takes [retry_count] from 0 to 1 and ends the session with
    "Maximum retries exceeded"; the session does not return to Generate. *)
Lemma C4_first_rejection_ends_session :
  let c := Scenario.after Graph.OperatorAdd 1
             (Scenario.session (fun _ => Scenario.list_files)
                               (false, "wrong path") 0) in
  Graph.c_phase (c 4) = Graph.At Graph.n_retry_node
  /\ Graph.retry_count (Graph.c_state (c 4)) = 0%Z
  /\ Graph.retry_count (Graph.c_state (c 5)) = 1%Z
  /\ Graph.c_phase (c 5) = Graph.Done Graph.n_retry_node
  /\ Graph.c_phase (c 5) <> Graph.At Graph.n_generate_command
  /\ Graph.error_message (Graph.c_state (c 5)) = Some "Maximum retries exceeded".
Proof.
  intros c. vm_compute. repeat split. discriminate.
Qed.

(** With [max_retries = 1] and [retry_count = 0] the Retry stage ends the
    session; with [max_retries = 2] it goes back to Generate. *)
Lemma C4_retry_counts_then_routes_witness :
  let s1 := Graph.initial_state (Scenario.settings 1) "list files" in
  let s2 := Graph.initial_state (Scenario.settings 2) "list files" in
  Graph.next_node Graph.n_retry_node
    (Graph.apply_update Graph.OperatorAdd (Graph.retry_node s1) s1) = Graph.END
  /\ Graph.next_node Graph.n_retry_node
       (Graph.apply_update Graph.OperatorAdd (Graph.retry_node s2) s2)
     = Graph.n_generate_command.
Proof.
  intros s1 s2. split.
  - destruct (C4_retry_counts_then_routes Graph.OperatorAdd s1)
      as (_ & _ & _ & H & _).
    exact (proj1 (H ltac:(cbn; lia))).
  - destruct (C4_retry_counts_then_routes Graph.OperatorAdd s2)
      as (_ & _ & _ & _ & H).
    exact (proj1 (H ltac:(cbn; lia))).
Defined.

(** Scenario E: the three shells fail in turn; the fallback stage finds
    none left, and the executor runs bash a second time. *)
Lemma C6_exhausted_shells_execute_again_witness :
  let w := Scenario.session (fun _ => Scenario.list_files) (true, "") 1 in
  let c := Scenario.after Graph.OperatorAdd 3 w in
  Graph.c_phase (c 9) = Graph.At Graph.n_try_alternative_shell
  /\ Graph.error_message (Graph.c_state (c 10))
     = Some "Execution failed in all shells: powershell, cmd, bash"
  /\ Graph.next_step (Graph.c_state (c 10)) = Graph.ns_present
  /\ Graph.c_phase (c 10) = Graph.At Graph.n_execute_command
  /\ map Graph.shell_type (Graph.c_executed (c 11))
     = [Executor.powershell; Executor.cmd; Executor.bash; Executor.bash].
Proof.
  intros w c. split; [reflexivity|].
  destruct (C6_exhausted_shells_execute_again Graph.OperatorAdd
              (Scenario.settings 3) Scenario.no_intelligent_retry w
              (c 9) 9 eq_refl ltac:(intros []; reflexivity))
    as (A & B & _ & D & E).
  split; [exact A | split; [exact B | split; [exact D|]]].
  change (c 11) with (Graph.step Graph.OperatorAdd (Scenario.settings 3)
                        Scenario.no_intelligent_retry w 10
                        (Graph.step Graph.OperatorAdd (Scenario.settings 3)
                           Scenario.no_intelligent_retry w 9 (c 9))).
  rewrite E. reflexivity.
Defined.

(** C7 on the same session.  With appended writes, [attempted_shells] ends
    as [powershell, cmd, bash, bash] and bash is executed twice; with
    overwriting writes the list is [powershell], then [cmd], then
    [powershell] again, and PowerShell is executed twice. *)
Lemma C7_shell_attempted_twice :
  let w := Scenario.session (fun _ => Scenario.list_files) (true, "") 1 in
  let add := Scenario.after Graph.OperatorAdd 3 w in
  let last := Scenario.after Graph.LastValue 3 w in
  (Graph.attempted_shells (Graph.c_state (add 11))
     = [Executor.powershell; Executor.cmd; Executor.bash; Executor.bash]
   /\ map Graph.shell_type (Graph.c_executed (add 11))
      = [Executor.powershell; Executor.cmd; Executor.bash; Executor.bash]
   /\ ~ NoDup (Graph.attempted_shells (Graph.c_state (add 11))))
  /\ (Graph.attempted_shells (Graph.c_state (last 5)) = [Executor.powershell]
      /\ Graph.attempted_shells (Graph.c_state (last 7)) = [Executor.cmd]
      /\ map Graph.shell_type (Graph.c_executed (last 9))
         = [Executor.powershell; Executor.cmd; Executor.powershell]).
Proof.
  intros w add last. vm_compute. repeat split.
  intros H. inversion H as [|x l N1 H1]; subst.
  inversion H1 as [|x l N2 H2]; subst.
  inversion H2 as [|x l N3 H3]; subst.
  apply N3. left. reflexivity.
Qed.

(** C8, the counterexample.  The generator proposes a harmless command,
    the human refuses it and gives no feedback: the session ends with
    neither an execution result nor an error message. *)
Lemma C8_refusal_without_feedback_leaves_nothing :
  let c := Scenario.after Graph.OperatorAdd 3
             (Scenario.session (fun _ => Scenario.list_files) (false, "") 0) 4 in
  Graph.c_phase c = Graph.Done Graph.n_await_confirmation
  /\ Graph.execution_result (Graph.c_state c) = None
  /\ Graph.error_message (Graph.c_state c) = None
  /\ Graph.has_outcome (Graph.c_state c) = false.
Proof.
  intros c. vm_compute. repeat split.
Qed.

(** Scenario B: the human confirms, the command exits with code 0, and the
    session ends after Present with the execution result in the state. *)
Lemma C8_finished_session_outcome_witness :
  let c := Scenario.after Graph.OperatorAdd 3
             (Scenario.session (fun _ => Scenario.list_files) (true, "") 0) 7 in
  Graph.c_phase c = Graph.Done Graph.n_present_result
  /\ (Graph.has_outcome (Graph.c_state c) = true
      \/ (Graph.n_present_result = Graph.n_await_confirmation
          /\ Graph.rejected_without_feedback (Graph.c_state c) = true)).
Proof.
  intros c. split; [reflexivity|].
  exact (C8_finished_session_outcome Graph.OperatorAdd (Scenario.settings 3)
           Scenario.no_intelligent_retry
           (Scenario.session (fun _ => Scenario.list_files) (true, "") 0)
           "list files" 7 Graph.n_present_result eq_refl).
Defined.

(** Scenario E again: eleven steps into the session in which every shell
    fails, the request is ["validate"] and the stage to run is Validate. *)
Lemma C10_intelligent_retry_unreachable_witness :
  let c := Scenario.after Graph.OperatorAdd 3
             (Scenario.session (fun _ => Scenario.list_files) (true, "") 1) 11 in
  Graph.next_step (Graph.c_state c) <> Graph.ns_intelligent_retry
  /\ Graph.c_phase c <> Graph.At Graph.n_intelligent_retry.
Proof.
  intros c.
  destruct (C10_intelligent_retry_unreachable Graph.OperatorAdd
              (Scenario.settings 3) Scenario.no_intelligent_retry
              (Scenario.session (fun _ => Scenario.list_files) (true, "") 1)
              "list files" c (ex_intro _ 11 eq_refl))
    as (A & B & _).
  exact (conj A B).
Defined.


(* ================================================================== *)
(** ** The retry budget *)

Section RetryBudget.

Import Executor Graph Session.

Variable red : reducer.
Variable settings : Settings.
Variable intelligent_retry_node : CommandState -> update.
Variable w : world.

Local Abbreviation step := (Graph.step red settings intelligent_retry_node w).
Local Abbreviation run := (Graph.run red settings intelligent_retry_node w).

Lemma apply_keeps_max_retries (u : update) : forall state,
  max_retries (apply_update red u state) = max_retries state.
Proof.
  induction u as [|a u IH]; intros state; [reflexivity|].
  change (apply_update red (a :: u) state)
    with (apply_update red u (assign red state a)).
  rewrite IH. destruct state, a; reflexivity.
Qed.

Lemma apply_keeps_retry_count (u : update) : forall state,
  existsb writes_retry_count u = false ->
  retry_count (apply_update red u state) = retry_count state.
Proof.
  induction u as [|a u IH]; intros state E; [reflexivity|].
  cbn in E. apply orb_false_iff in E as [Ea Eu].
  change (apply_update red (a :: u) state)
    with (apply_update red u (assign red state a)).
  rewrite (IH _ Eu). destruct state, a; try reflexivity; discriminate.
Qed.

(** Only [retry_node] writes [retry_count]. *)
Lemma nodes_keep_retry_count (state : CommandState) :
  (forall generate,
     existsb writes_retry_count (generate_command_node state generate) = false)
  /\ (forall u, await_confirmation_node state = Update u ->
        existsb writes_retry_count u = false)
  /\ (forall confirmed answer,
        existsb writes_retry_count (human_update confirmed answer) = false)
  /\ (forall r, existsb writes_retry_count (execute_command_node state r) = false)
  /\ (forall validate,
        existsb writes_retry_count (validate_result_node state validate) = false)
  /\ (forall o, existsb writes_retry_count (analyze_content_node o) = false)
  /\ existsb writes_retry_count (present_result_node state) = false
  /\ (forall generate,
        existsb writes_retry_count (try_alternative_shell_node state generate)
        = false).
Proof.
  repeat split.
  - intros generate. unfold generate_command_node.
    destruct (generate _); [destruct (detect_analysis _)|]; reflexivity.
  - unfold await_confirmation_node.
    destruct (user_confirmed state); [intros u [= <-]; reflexivity|].
    destruct (safety_assessment state) as [sa|]; [|discriminate].
    destruct (negb (allow sa)); [intros u [= <-]; reflexivity | discriminate].
  - intros r. unfold execute_command_node.
    destruct r; repeat match goal with
                       | |- context [if ?b then _ else _] => destruct b
                       end; reflexivity.
  - intros validate. unfold validate_result_node.
    destruct (validate _ _ _); reflexivity.
  - intros []; reflexivity.
  - intros generate. unfold try_alternative_shell_node.
    destruct (find _ _); [|reflexivity].
    destruct (execution_result state); [destruct (generate _)|]; reflexivity.
Qed.

(** A node other than [retry_node] leaves the budget as it is. *)
Lemma advance_keeps_budget (n : node) (u : update) (c : config) :
  n <> n_retry_node ->
  existsb writes_retry_count u = false ->
  max_retries (c_state c) = settings_max_retries settings ->
  (retry_count (c_state c) = 0%Z
   \/ (0 < retry_count (c_state c) < max_retries (c_state c))%Z) ->
  retry_invariant settings (advance red n u c).
Proof.
  intros N U M R. unfold retry_invariant.
  destruct (advance_state red n u c) as (-> & _ & ->).
  rewrite apply_keeps_max_retries, apply_keeps_retry_count by exact U.
  split; [exact M|].
  destruct (next_node n (apply_update red u (c_state c))); try exact R.
  destruct n; try exact R. contradiction.
Qed.

Lemma retry_keeps_budget (c : config) :
  max_retries (c_state c) = settings_max_retries settings ->
  (retry_count (c_state c) = 0%Z
   \/ (0 < retry_count (c_state c) < max_retries (c_state c))%Z) ->
  retry_invariant settings
    (advance red n_retry_node (retry_node (c_state c)) c).
Proof.
  intros M R. unfold retry_invariant.
  destruct (advance_state red n_retry_node (retry_node (c_state c)) c)
    as (-> & _ & ->).
  rewrite apply_keeps_max_retries. split; [exact M|].
  destruct (c_state c); unfold retry_node in *;
    cbn [Graph.retry_count Graph.max_retries] in *.
  destruct (Z.geb_spec (retry_count0 + 1) max_retries0) as [G|G];
    cbn; unfold route_after_retry; cbn;
    destruct (Z.ltb_spec (retry_count0 + 1) max_retries0); try lia.
  split; [lia | reflexivity].
Qed.

Lemma step_retry_invariant (t : nat) (c : config) :
  session_invariant c ->
  retry_invariant settings c -> retry_invariant settings (step t c).
Proof.
  intros [_ P] [M R].
  pose proof (nodes_keep_retry_count (c_state c))
    as (Ugen & Uawait & Uhuman & Uexec & Uval & Uana & Upres & Ualt).
  unfold Graph.step.
  destruct (c_phase c) as [n| |from|msg] eqn:Ph.
  - destruct n; try (apply advance_keeps_budget;
                     [discriminate | auto | exact M | exact R]).
    + (* await_confirmation *)
      destruct (await_confirmation_node (c_state c)) as [u|d|msg] eqn:A.
      * apply advance_keeps_budget;
          [discriminate | apply Uawait; reflexivity | exact M | exact R].
      * split; [exact M | exact R].
      * split; [exact M | exact R].
    + (* retry_node *)
      apply retry_keeps_budget; [exact M | exact R].
    + (* intelligent_retry: never entered *)
      destruct P.
    + split; [exact M|]. rewrite Ph. exact R.
  - destruct (human w t) as [confirmed answer].
    split; cbn [c_state c_phase].
    + rewrite apply_keeps_max_retries. exact M.
    + rewrite apply_keeps_max_retries, apply_keeps_retry_count by apply Uhuman.
      exact R.
  - split; [exact M|]. rewrite Ph. exact R.
  - split; [exact M|]. rewrite Ph. exact R.
Qed.

Lemma run_retry_invariant (fuel : nat) : forall (t : nat) (c : config),
  session_invariant c -> retry_invariant settings c ->
  session_invariant (run fuel t c) /\ retry_invariant settings (run fuel t c).
Proof.
  induction fuel as [|fuel IH]; intros t c S R; [split; assumption|].
  apply IH;
    [apply step_invariant, S | apply step_retry_invariant; assumption].
Qed.

(** X1.  In every configuration of a session [max_retries] is the configured
    value and [retry_count] lies between 0 and [max(max_retries, 1)]; a
    session that ends at the Retry stage has
    [retry_count = max(max_retries, 1)] and the error "Maximum retries
    exceeded".  With [max_retries >= 1] the count never exceeds the
    budget; with a budget of 0 or less it ends at 1. *)
Theorem retry_count_within_budget (input : string) (c : config) :
  reachable red settings intelligent_retry_node w input c ->
  max_retries (c_state c) = settings_max_retries settings
  /\ (0 <= retry_count (c_state c) <= Z.max (max_retries (c_state c)) 1)%Z
  /\ (c_phase c = Done n_retry_node ->
      retry_count (c_state c) = Z.max (max_retries (c_state c)) 1
      /\ error_message (c_state c) = Some "Maximum retries exceeded")
  /\ ((1 <= max_retries (c_state c))%Z ->
      (retry_count (c_state c) <= max_retries (c_state c))%Z).
Proof.
  intros [fuel <-].
  assert (retry_invariant settings (start settings input)) as R0.
  { split; [reflexivity | left; reflexivity]. }
  destruct (run_retry_invariant fuel 0 _ (start_invariant settings input) R0)
    as [_ [M R]].
  split; [exact M|].
  destruct (c_phase (run fuel 0 (start settings input))) as [n| |from|msg];
    try (repeat split; intros; try discriminate; lia).
  destruct from;
    try (repeat split; intros; try discriminate; lia).
  destruct R as [R E]. repeat split; intros; try assumption; lia.
Qed.

End RetryBudget.


(* ================================================================== *)
(** ** Termination when writes to [attempted_shells] are appended *)

Section Termination.

Import Executor Graph Session.

Variable settings : Settings.
Variable intelligent_retry_node : CommandState -> update.
Variable w : world.

Local Abbreviation step :=
  (Graph.step OperatorAdd settings intelligent_retry_node w).
Local Abbreviation run :=
  (Graph.run OperatorAdd settings intelligent_retry_node w).











End Termination.


(* ================================================================== *)
(** ** Confirmation before execution *)

Section Confirmation.

Import Executor Graph Session.

Variable red : reducer.
Variable settings : Settings.
Variable intelligent_retry_node : CommandState -> update.
Variable w : world.

Local Abbreviation step := (Graph.step red settings intelligent_retry_node w).
Local Abbreviation run := (Graph.run red settings intelligent_retry_node w).

Ltac simp :=
  cbn -[Safety.assess PyStr.join append PyStr.truthy_opt] in *.

Ltac finish :=
  unfold confirmation_invariant, confirmed, allowed, route_after_confirmation,
    route_after_validation, route_after_retry, route_after_execution in *;
  simp; repeat split; intros; simp;
  intuition (try discriminate; try congruence; eauto);
  try match goal with
      | HB : forall s, In s ?l -> _ /\ _, HI : In ?x ?l |- _ =>
          destruct (HB x HI); assumption
      end.

Lemma start_confirmation (input : string) :
  confirmation_invariant (start settings input).
Proof. finish. Qed.

Lemma step_confirmation (t : nat) (c : config) :
  session_invariant c ->
  confirmation_invariant c -> confirmation_invariant (step t c).
Proof.
  intros [_ P] I. destruct c as [ph st ex].
  destruct ph as [n| |from|msg]; [destruct n|..].
  - (* generate_command *)
    unfold Graph.step, advance, generate_command_node; cbn [c_phase c_state].
    destruct (generation_service w t (user_input st));
      [destruct (detect_analysis _)|];
      destruct st; finish.
  - (* await_confirmation *)
    unfold Graph.step, advance, await_confirmation_node; cbn [c_phase c_state].
    destruct st; cbn [Graph.user_confirmed Graph.safety_assessment] in *.
    destruct user_confirmed0 as [b|].
    + simp. unfold route_after_confirmation; simp.
      destruct b; simp; [finish|].
      destruct (PyStr.truthy_opt user_feedback0); finish.
    + destruct safety_assessment0 as [sa|]; [|finish].
      destruct (allow sa) eqn:A; cbn [negb]; [finish|].
      simp. unfold route_after_confirmation.
      cbn [Graph.user_confirmed Graph.user_feedback truthy_bool
           PyStr.truthy_opt PyStr.truthy].
      finish.
  - (* execute_command *)
    unfold Graph.step, advance; cbn [c_phase c_state c_executed].
    match goal with
    | |- context [execute_command_node _ ?r] => generalize r
    end.
    intros r. unfold execute_command_node.
    pose proof I as (_ & IB & IC & _ & IE & _).
    cbn [c_phase c_state c_executed] in IB, IC, IE.
    destruct (IE eq_refl) as (EU & EG & EA).
    assert (forall x, In x (ex ++ [st]) ->
              user_confirmed x = Some true
              /\ populated (generated_command x) = true) as B.
    { intros x [H|[<-|[]]]%in_app_or; [apply IB, H | split; assumption]. }
    assert (forall x, hd_error (ex ++ [st]) = Some x -> allowed x = true) as C.
    { destruct ex as [|e ex'].
      - intros x [= <-]. apply EA. reflexivity.
      - exact IC. }
    assert ((ex ++ [st])%list <> []) as NE by (destruct ex; discriminate).
    destruct r as [res|e];
      repeat match goal with
             | |- context [if ?b then _ else _] => destruct b
             end;
      destruct st; finish.
  - (* validate_result *)
    unfold Graph.step, advance, validate_result_node; cbn [c_phase c_state].
    destruct (validation_service w t _ _ _);
      destruct st; simp; unfold route_after_validation; simp;
      destruct (truthy_bool requires_analysis0); finish.
  - (* present_result *)
    unfold Graph.step, advance, present_result_node; cbn [c_phase c_state].
    destruct st; finish.
  - (* retry_node *)
    unfold Graph.step, advance, retry_node; cbn [c_phase c_state].
    destruct st; cbn [Graph.retry_count Graph.max_retries].
    destruct (retry_count0 + 1 >=? max_retries0)%Z;
      simp; unfold route_after_retry; simp;
      destruct (_ <? _)%Z; finish.
  - (* intelligent_retry: never entered *)
    destruct P.
  - (* try_alternative_shell *)
    unfold Graph.step, advance, try_alternative_shell_node;
      cbn [c_phase c_state].
    destruct (find _ _); [|destruct st; finish].
    destruct (execution_result st);
      [destruct (generation_service w t _)|]; destruct st; finish.
  - (* analyze_content *)
    unfold Graph.step, advance; cbn [c_phase c_state].
    destruct (analysis w t st); destruct st; finish.
  - exact I.
  - (* suspended *)
    unfold Graph.step, human_update; cbn [c_phase c_state].
    destruct (human w t) as [b answer].
    destruct st; destruct safety_assessment0 as [sa|]; destruct b; finish.
  - exact I.
  - exact I.
Qed.

Lemma run_confirmation (fuel : nat) : forall (t : nat) (c : config),
  session_invariant c -> confirmation_invariant c ->
  confirmation_invariant (run fuel t c).
Proof.
  induction fuel as [|fuel IH]; intros t c S I; [exact I|].
  apply IH; [apply step_invariant, S | apply step_confirmation; assumption].
Qed.

(** X3.  In every configuration of a session: the Process Executor has only
    been invoked in states with [user_confirmed = True] and a generated
    command; the first command executed is one the safety gate allowed;
    the human is only asked about a command the gate allowed; and nothing
    has been executed before the confirmation stage let the session
    through. *)
Theorem execution_needs_confirmation (input : string) (c : config) :
  reachable red settings intelligent_retry_node w input c ->
  (forall st, In st (c_executed c) ->
     user_confirmed st = Some true /\ populated (generated_command st) = true)
  /\ (forall st, hd_error (c_executed c) = Some st -> allowed st = true)
  /\ (c_phase c = Suspended -> allowed (c_state c) = true)
  /\ (before_execution (c_phase c) = true -> c_executed c = []).
Proof.
  intros [fuel <-].
  pose proof (run_confirmation fuel 0 _ (start_invariant settings input)
                (start_confirmation input)) as (_ & B & C & D & _ & F).
  repeat split; try assumption; try (apply B; assumption).
  intros S. rewrite S in F. apply F.
Qed.

Lemma run_add (a : nat) : forall (b t : nat) (c : config),
  run (a + b) t c = run b (t + a) (run a t c).
Proof.
  induction a as [|a IH]; intros b t c; cbn [Nat.add Graph.run].
  - now rewrite Nat.add_0_r.
  - rewrite IH. f_equal. lia.
Qed.

Lemma assign_keeps_answer (state : CommandState) (a : assignment) :
  populated (user_confirmed state) = true ->
  populated (user_confirmed (assign red state a)) = true.
Proof. destruct state, a; cbn; auto. Qed.

Lemma apply_keeps_answer (u : update) : forall state,
  populated (user_confirmed state) = true ->
  populated (user_confirmed (apply_update red u state)) = true.
Proof.
  induction u as [|a u IH]; intros state H; [exact H|].
  apply IH, assign_keeps_answer, H.
Qed.

(** A step changes the state by merging one dictionary. *)
Lemma step_state (t : nat) (c : config) :
  exists u, c_state (step t c) = apply_update red u (c_state c).
Proof.
  unfold Graph.step.
  destruct (c_phase c) as [n| |from|msg];
    [destruct n|..];
    try (match goal with
         | |- context [advance _ ?n ?u ?c0] =>
             exists u; destruct (advance_state red n u c0) as (-> & _);
             reflexivity
         end);
    try (exists []; reflexivity).
  - destruct (await_confirmation_node (c_state c)) as [u|d|msg].
    + exists u. destruct (advance_state red n_await_confirmation u c) as (-> & _).
      reflexivity.
    + exists []. reflexivity.
    + exists []. reflexivity.
  - destruct (human w t) as [b answer]. eexists. reflexivity.
Qed.

Lemma run_keeps_answer (fuel : nat) : forall (t : nat) (c : config),
  populated (user_confirmed (c_state c)) = true ->
  populated (user_confirmed (c_state (run fuel t c))) = true.
Proof.
  induction fuel as [|fuel IH]; intros t c H; [exact H|].
  cbn [Graph.run]. apply IH.
  destruct (step_state t c) as [u ->]. apply apply_keeps_answer, H.
Qed.

(** The answer of the human is in the state once the suspended session
    resumes. *)
Lemma resumed_with_answer (t : nat) (c : config) :
  c_phase c = Suspended ->
  populated (user_confirmed (c_state (step t c))) = true
  /\ c_phase (step t c) = At n_await_confirmation
  /\ c_executed (step t c) = c_executed c
  /\ (fst (human w t) = false -> user_confirmed (c_state (step t c)) = Some false).
Proof.
  intros S. unfold Graph.step. rewrite S.
  destruct (human w t) as [b answer]. cbn [c_state c_phase c_executed fst].
  destruct (c_state c); cbn. repeat split. intros ->. reflexivity.
Qed.

(** X4.  The human is asked at most once in a session: once the session was
    suspended for the confirmation, it is never suspended again, whatever
    the answer was and whatever is generated afterwards. *)
Theorem human_is_asked_once (input : string) (n k : nat) :
  c_phase (run n 0 (start settings input)) = Suspended ->
  c_phase (run (S n + k) 0 (start settings input)) <> Suspended.
Proof.
  intros S1 S2.
  pose proof (run_confirmation (S n + k) 0 _
                (start_invariant settings input) (start_confirmation input))
    as (_ & _ & _ & _ & _ & F).
  rewrite S2 in F. destruct F as [N _].
  replace (S n + k) with (n + S k) in N by lia.
  rewrite run_add in N. cbn [Graph.run] in N.
  pose proof (resumed_with_answer (0 + n) _ S1) as (A & _).
  pose proof (run_keeps_answer k (S (0 + n)) _ A) as A'.
  rewrite N in A'. discriminate.
Qed.

(** X5.  A refusal is final: when the human answers no, with or without
    feedback, [user_confirmed] stays [False] for the rest of the session,
    the human is not asked again, and no command is ever executed,
    although commands may still be generated on the way through Retry. *)
Theorem refusal_is_final (input : string) (n k : nat) :
  c_phase (run n 0 (start settings input)) = Suspended ->
  fst (human w n) = false ->
  let c := run (S n + k) 0 (start settings input) in
  user_confirmed (c_state c) = Some false
  /\ c_executed c = []
  /\ c_phase c <> Suspended
  /\ after_confirmation (c_phase c) = false.
Proof.
  intros S1 H c.
  pose proof (run_confirmation n 0 _
                (start_invariant settings input) (start_confirmation input))
    as (_ & _ & _ & D & _).
  rewrite S1 in D. specialize (D eq_refl).
  pose proof (resumed_with_answer (0 + n) _ S1) as (_ & P & E & U).
  specialize (U H).
  assert (refused (Graph.step red settings intelligent_retry_node w (0 + n)
                     (run n 0 (start settings input)))) as R.
  { split; [exact U | rewrite P; exact I]. }
  destruct (run_refused red settings intelligent_retry_node w k (S (0 + n)) _ R)
    as [[U' P'] E'].
  subst c. replace (S n + k) with (n + S k) by lia.
  rewrite run_add. cbn [Graph.run].
  repeat split.
  - exact U'.
  - rewrite E', E. exact D.
  - intros X. rewrite X in P'. exact P'.
  - match type of P' with
    | match ?p with _ => _ end =>
        destruct p as [[]| | |]; try reflexivity; contradiction
    end.
Qed.

End Confirmation.


(* ================================================================== *)
(** ** More on the safety gate *)

Lemma match_here_app (p : list Re.item) : forall s b,
  Re.match_here p s = true -> Re.match_here p (s ++ b) = true.
Proof.
  induction p as [|[a q] p IH]; intros s b; [reflexivity|].
  assert (STAR : forall t,
    (fix star (t : string) : bool :=
       Re.match_here p t ||
       match t with
       | String c t' => Re.atom_matches a c && star t'
       | EmptyString => false
       end) t = true ->
    (fix star (t : string) : bool :=
       Re.match_here p t ||
       match t with
       | String c t' => Re.atom_matches a c && star t'
       | EmptyString => false
       end) (t ++ b) = true).
  { induction t as [|c t IHt]; intros H.
    - apply orb_true_iff in H as [H|H]; [|discriminate].
      apply (IH "" b) in H. cbn [append] in *.
      destruct b; rewrite H; reflexivity.
    - apply orb_true_iff in H as [H|H].
      + apply (IH _ b) in H. cbn [append] in *. rewrite H. reflexivity.
      + apply andb_true_iff in H as [H1 H2]. cbn [append].
        rewrite H1, (IHt H2). apply orb_true_r. }
  destruct q; cbn [Re.match_here].
  - destruct s as [|c s]; [discriminate|]. cbn [append].
    intros [H1 H2]%andb_true_iff. now rewrite H1, IH.
  - apply STAR.
  - destruct s as [|c s]; [discriminate|]. cbn [append].
    intros [H1 H2]%andb_true_iff. now rewrite H1, STAR.
Qed.

Lemma search_items_app_r (p : list Re.item) (s b : string) :
  Re.search_items p s = true -> Re.search_items p (s ++ b) = true.
Proof.
  induction s as [|c s IH]; cbn [Re.search_items append].
  - rewrite orb_false_r. intros H. apply (match_here_app p "" b) in H.
    cbn [append] in H. destruct b; cbn [Re.search_items]; rewrite H; reflexivity.
  - intros [H|H]%orb_true_iff.
    + apply (match_here_app p _ b) in H. cbn [append] in H. now rewrite H.
    + rewrite (IH H). apply orb_true_r.
Qed.

Lemma search_items_app_l (p : list Re.item) (a s : string) :
  Re.search_items p s = true -> Re.search_items p (a ++ s) = true.
Proof.
  intros H. induction a as [|c a IH]; [exact H|].
  cbn [append Re.search_items]. rewrite IH. apply orb_true_r.
Qed.

(** A match survives text added in front of and behind the string. *)
Lemma search_embedded (pattern before s after : string) :
  Re.search pattern s = true ->
  Re.search pattern (before ++ s ++ after) = true.
Proof.
  unfold Re.search. destruct (Re.compile pattern); [|discriminate].
  intros H. apply search_items_app_l, search_items_app_r, H.
Qed.

(** [allow] is decided by the dangerous patterns alone. *)
Lemma assess_allow (self : Safety.CommandFilter) (command : string) :
  Safety.a_allow (Safety.assess self command)
  = negb (existsb (fun p => Re.search p command)
                  (Safety.dangerous_patterns self))
  /\ (Safety.a_allow (Safety.assess self command) = false <->
      Safety.a_level (Safety.assess self command) = Safety.dangerous)
  /\ (Safety.a_allow (Safety.assess self command) = false ->
      Safety.matched_patterns (Safety.assess self command)
      = filter (fun p => Re.search p command) (Safety.dangerous_patterns self)).
Proof.
  unfold Safety.assess. rewrite !scan_filter. cbn [app].
  destruct (filter _ (Safety.dangerous_patterns self)) as [|d ds] eqn:D.
  - apply filter_nil_existsb in D. rewrite D.
    destruct (filter _ (Safety.suspicious_patterns self));
      cbn; repeat split; intros; discriminate.
  - assert (existsb (fun p => Re.search p command)
              (Safety.dangerous_patterns self) = true) as D'.
    { destruct (existsb _ _) eqn:E; [reflexivity|].
      apply filter_nil_existsb in E. congruence. }
    rewrite D'. cbn. rewrite app_nil_r. repeat split.
Qed.

(** X6.  A command the gate blocks stays blocked inside a longer command line:
    whatever text is put in front of it or behind it, the verdict is
    [dangerous] with [allow = False], and every pattern that matched still
    matches. *)
Theorem blocked_command_stays_blocked
    (self : Safety.CommandFilter) (before command after : string) :
  Safety.a_allow (Safety.assess self command) = false ->
  let r := Safety.assess self (before ++ command ++ after) in
  Safety.a_allow r = false
  /\ Safety.a_level r = Safety.dangerous
  /\ incl (Safety.matched_patterns (Safety.assess self command))
          (Safety.matched_patterns r).
Proof.
  intros H r.
  destruct (assess_allow self command) as (A & _ & M).
  destruct (assess_allow self (before ++ command ++ after)) as (A' & L' & M').
  fold r in A', L', M'.
  rewrite A in H. apply negb_false_iff in H.
  assert (Safety.a_allow r = false) as B.
  { rewrite A'. apply negb_false_iff.
    apply existsb_exists in H as (p & I & S).
    apply existsb_exists. exists p. split; [exact I|].
    apply search_embedded, S. }
  split; [exact B | split; [apply L', B|]].
  rewrite M' by exact B. rewrite M by (rewrite A, H; reflexivity).
  intros p [I S]%filter_In. apply filter_In. split; [exact I|].
  apply search_embedded, S.
Qed.

Lemma blocked_command_stays_blocked_witness :
  let r := Safety.assess Safety.new_filter
             ("cd C:\; " ++ "Format-Volume -DriveLetter D" ++ " ; exit") in
  Safety.a_allow r = false /\ Safety.a_level r = Safety.dangerous.
Proof.
  intros r.
  destruct (blocked_command_stays_blocked Safety.new_filter "cd C:\; "
              "Format-Volume -DriveLetter D" " ; exit" eq_refl) as (A & B & _).
  exact (conj A B).
Defined.

(* ================================================================== *)
(** ** From the generator to the executor *)

Section Handover.

Import Executor Graph Session.

Variable red : reducer.
Variable settings : Settings.

(** X7.  The generator's own safety label is recorded but decides nothing:
    after a successful generation [allow] is [False] exactly when a
    dangerous pattern matches the generated command, the generator's
    warnings come first in the list, and the command is not yet
    confirmed by this step. *)
Theorem generator_label_is_not_trusted
    (state : CommandState) (generate : string -> reply generation_result)
    (g : generation_result) :
  generate (user_input state) = Returned g ->
  let state' := apply_update red (generate_command_node state generate) state in
  generated_command state' = Some (g_command g)
  /\ user_confirmed state' = user_confirmed state
  /\ next_step state' = ns_confirm
  /\ exists sa,
       safety_assessment state' = Some sa
       /\ allow sa
          = negb (existsb (fun p => Re.search p (g_command g))
                          Safety.DANGEROUS_PATTERNS)
       /\ llm_safety sa = g_safety_level g
       /\ warnings sa
          = (g_warnings g
             ++ Safety.a_warnings (Safety.assess command_filter (g_command g)))%list.
Proof.
  intros G state'. subst state'. unfold generate_command_node. rewrite G.
  destruct (detect_analysis _) as [requires kind].
  destruct (assess_allow command_filter (g_command g)) as (A & _).
  destruct state; cbn -[Safety.assess]. repeat split.
  eexists. split; [reflexivity|]. cbn -[Safety.assess]. repeat split.
  exact A.
Qed.

(** The executor's dictionary carries an [error] key only with
    [return_code = -1]. *)
Lemma executor_error_code (windows : bool)
    (os : list string -> Z -> run_outcome) (state : CommandState) :
  PyStr.truthy_opt (error (call_executor settings windows os state)) = true ->
  return_code (call_executor settings windows os state) = (-1)%Z.
Proof.
  unfold call_executor, execute, execute_cmd, execute_bash.
  destruct (shell_type state); cbn zeta;
    match goal with
    | |- context [Executor.run _ _ _ ?o] => destruct o
    end; cbn; try discriminate; reflexivity.
Qed.

(** X8.  Where the session goes after the Execute stage.  When the executor
    returns (also after a launch failure or a timeout, which it reports
    with code -1) the result is stored and the status is "success" for
    code 0 and "failed" otherwise; the next stage is Validate when the
    code is 0 or the shell was attempted before, and the shell fallback
    otherwise; never Present.  Only when the executor call itself raises
    is the status "error" and the next stage Present (shell attempted
    before) or the fallback. *)
Theorem routing_after_execution (windows : bool)
    (os : list string -> Z -> run_outcome) (state : CommandState) (e : string) :
  let r := call_executor settings windows os state in
  let tried := shell_in (shell_type state) (attempted_shells state) in
  let returned := apply_update red (execute_command_node state (Returned r)) state in
  let raised := apply_update red (execute_command_node state (Raises e)) state in
  (execution_result returned = Some r
   /\ execution_status returned
      = (if (return_code r =? 0)%Z then success else failed)
   /\ next_node n_execute_command returned
      = (if (return_code r =? 0)%Z || tried then n_validate_result
         else n_try_alternative_shell))
  /\ (execution_result raised = execution_result state
      /\ execution_status raised = status_error
      /\ error_message raised = Some e
      /\ next_node n_execute_command raised
         = (if tried then n_present_result else n_try_alternative_shell)).
Proof.
  intros r tried returned raised.
  pose proof (executor_error_code windows os state) as EC. fold r in EC.
  subst returned raised. unfold execute_command_node. fold tried.
  split.
  - destruct (PyStr.truthy_opt (error r)) eqn:E.
    + rewrite (EC eq_refl). cbn [Z.eqb orb negb andb].
      destruct tried; destruct state; cbn; repeat split.
    + cbn [orb]. destruct (return_code r =? 0)%Z; cbn [negb orb andb];
        destruct tried; destruct state; cbn; repeat split.
  - destruct tried; destruct state; cbn; repeat split.
Qed.

End Handover.


(* ================================================================== *)
(** ** Stripping and sanitising *)

Lemma lstrip_all_space (s : string) :
  Text.lstrip s = "" <-> Text.all_space s = true.
Proof.
  induction s as [|c s IH]; cbn; [tauto|].
  destruct (Re.is_space c); cbn; [exact IH|]. split; discriminate.
Qed.

Lemma lstrip_head (s : string) (c : ascii) (r : string) :
  Text.lstrip s = String c r -> Re.is_space c = false.
Proof.
  induction s as [|d s IH]; cbn; [discriminate|].
  destruct (Re.is_space d) eqn:D; [exact IH|]. intros [= <- _]. exact D.
Qed.

Lemma rstrip_head (c : ascii) (r : string) :
  Re.is_space c = false -> exists r', Text.rstrip (String c r) = String c r'.
Proof.
  intros H. cbn. destruct (Text.rstrip r); [rewrite H|]; eauto.
Qed.

Lemma rstrip_all_space (s : string) :
  Text.rstrip s = "" <-> Text.all_space s = true.
Proof.
  induction s as [|c s IH]; cbn; [tauto|].
  destruct (Text.rstrip s) eqn:R.
  - destruct (Re.is_space c); cbn; [tauto|]. split; discriminate.
  - split; [discriminate|]. intros [_ H]%andb_true_iff.
    apply IH in H. discriminate.
Qed.

Lemma rstrip_length (s : string) :
  String.length (Text.rstrip s) <= String.length s.
Proof.
  induction s as [|c s IH]; cbn; [lia|].
  destruct (Text.rstrip s); [destruct (Re.is_space c)|]; cbn in *; lia.
Qed.

Lemma lstrip_length (s : string) :
  String.length (Text.lstrip s) <= String.length s.
Proof.
  induction s as [|c s IH]; cbn; [lia|].
  destruct (Re.is_space c); cbn; lia.
Qed.

Lemma all_space_lstrip (s : string) :
  Text.all_space (Text.lstrip s) = Text.all_space s.
Proof.
  induction s as [|c s IH]; cbn; [reflexivity|].
  destruct (Re.is_space c) eqn:C; cbn; [exact IH | now rewrite C].
Qed.

Lemma rstrip_last (s : string) (c : ascii) :
  Text.last_char (Text.rstrip s) = Some c -> Re.is_space c = false.
Proof.
  induction s as [|d s IH]; cbn; [discriminate|].
  destruct (Text.rstrip s) as [|e r] eqn:R.
  - destruct (Re.is_space d) eqn:D; cbn; [discriminate|].
    intros [= <-]. exact D.
  - cbn. exact IH.
Qed.

Lemma rstrip_fixed (s : string) :
  (forall c, Text.last_char s = Some c -> Re.is_space c = false) ->
  Text.rstrip s = s.
Proof.
  induction s as [|d s IH]; intros H; [reflexivity|].
  cbn. destruct s as [|e s'].
  - cbn. rewrite (H d eq_refl). reflexivity.
  - rewrite IH by (intros c L; apply H; exact L). reflexivity.
Qed.

Lemma lstrip_fixed (s : string) :
  (forall c r, s = String c r -> Re.is_space c = false) ->
  Text.lstrip s = s.
Proof.
  destruct s as [|c r]; intros H; [reflexivity|].
  cbn. now rewrite (H c r eq_refl).
Qed.

(** [strip] leaves no white space at either end, and is idempotent. *)
Lemma strip_spec (s : string) :
  (Text.strip s = "" <-> Text.all_space s = true)
  /\ (forall c r, Text.strip s = String c r -> Re.is_space c = false)
  /\ (forall c, Text.last_char (Text.strip s) = Some c -> Re.is_space c = false)
  /\ String.length (Text.strip s) <= String.length s
  /\ Text.strip (Text.strip s) = Text.strip s.
Proof.
  unfold Text.strip.
  assert (forall c r, Text.rstrip (Text.lstrip s) = String c r ->
                      Re.is_space c = false) as HEAD.
  { intros c r. destruct (Text.lstrip s) as [|d l] eqn:L; [discriminate|].
    pose proof (lstrip_head _ _ _ L) as D.
    destruct (rstrip_head d l D) as [r' ->]. intros [= <- _]. exact D. }
  repeat split.
  - intros H. apply rstrip_all_space in H. now rewrite all_space_lstrip in H.
  - intros H. apply rstrip_all_space. now rewrite all_space_lstrip.
  - exact HEAD.
  - apply rstrip_last.
  - pose proof (rstrip_length (Text.lstrip s)).
    pose proof (lstrip_length s). lia.
  - rewrite (lstrip_fixed (Text.rstrip (Text.lstrip s))) by exact HEAD.
    apply rstrip_fixed, rstrip_last.
Qed.

Lemma slice_to_nonneg (n : Z) (s : string) :
  (0 <= n)%Z -> PyStr.slice_to n s = substring 0 (Z.to_nat (Z.min n (Z.of_nat (String.length s)))) s.
Proof.
  intros H. unfold PyStr.slice_to.
  destruct (Z.ltb_spec n 0); [lia | reflexivity].
Qed.

Lemma substring_0_head (n : nat) (c : ascii) (r : string) :
  substring 0 (S n) (String c r) = String c (substring 0 n r).
Proof. reflexivity. Qed.

(** X9.  [sanitize_user_input]: the request is at most 1000 characters long,
    empty exactly when the input was white space only, and never starts
    with white space.  When nothing had to be cut it does not end with
    white space either and sanitising it again changes nothing. *)
Theorem sanitized_request (user_input : string) :
  let r := Sanitizer.sanitize_user_input user_input in
  String.length r <= 1000
  /\ (r = "" <-> Text.all_space user_input = true)
  /\ (forall c rest, r = String c rest -> Re.is_space c = false)
  /\ (String.length (Text.strip user_input) <= 1000 ->
      r = Text.strip user_input
      /\ (forall c, Text.last_char r = Some c -> Re.is_space c = false)
      /\ Sanitizer.sanitize_user_input r = r).
Proof.
  intros r. subst r. unfold Sanitizer.sanitize_user_input.
  destruct (strip_spec user_input) as (E & H & L & _ & I).
  destruct (Z.gtb_spec (Z.of_nat (String.length (Text.strip user_input))) 1000)
    as [G|G].
  - rewrite slice_to_nonneg by lia. rewrite Z.min_l by lia.
    change (Z.to_nat 1000) with 1000.
    destruct (Text.strip user_input) as [|c s] eqn:ST; [cbn in G; lia|].
    change 1000 with (S 999) at 2 3 4. rewrite substring_0_head.
    repeat split.
    + cbn [String.length]. rewrite (length_substring_0 999 s); [lia|].
      cbn in G. lia.
    + discriminate.
    + intros A. apply E in A. discriminate.
    + intros c' rest [= <- _]. apply (H c s eq_refl).
    + cbn in G. cbn [String.length] in *. lia.
    + cbn in G. cbn [String.length] in *. lia.
    + cbn in G. cbn [String.length] in *. lia.
  - repeat split; try (apply E); try reflexivity.
    + lia.
    + exact H.
    + exact L.
    + rewrite I.
      destruct (Z.gtb_spec (Z.of_nat (String.length (Text.strip user_input))) 1000);
        [lia | reflexivity].
Qed.

Lemma slice_to_length (n : Z) (s : string) :
  (0 <= n)%Z -> Z.of_nat (String.length (PyStr.slice_to n s)) = Z.min n (Z.of_nat (String.length s)).
Proof.
  intros H. rewrite slice_to_nonneg by exact H.
  rewrite length_substring_0 by lia. lia.
Qed.

(** X10.  [sanitize_output] and [sanitize_error] never return an empty string:
    empty input is replaced by a placeholder.  Under a limit that is not
    negative, text within the limit is returned as it is; of longer text
    the first [max_length] characters are returned, followed by the
    function's truncation marker, so the result is never longer than the
    limit plus the marker. *)
Theorem sanitized_output_bounds (text : string) (max_length : Z) :
  (0 <= max_length)%Z ->
  let out := Sanitizer.sanitize_output text max_length in
  let err := Sanitizer.sanitize_error text max_length in
  out <> "" /\ err <> ""
  /\ (Sanitizer.sanitize_output "" max_length = "(empty)"
      /\ Sanitizer.sanitize_error "" max_length = "(no errors)")
  /\ (text <> "" -> (Z.of_nat (String.length text) <= max_length)%Z ->
      out = text /\ err = text)
  /\ (Z.of_nat (String.length out)
      <= Z.max 7 (max_length + Z.of_nat (String.length Sanitizer.OUTPUT_MARKER)))%Z
  /\ (Z.of_nat (String.length err)
      <= Z.max 11 (max_length + Z.of_nat (String.length Sanitizer.ERROR_MARKER)))%Z
  /\ ((max_length < Z.of_nat (String.length text))%Z ->
      out = substring 0 (Z.to_nat max_length) text
            ++ String "010"%char "... (output truncated)"
      /\ err = substring 0 (Z.to_nat max_length) text
               ++ String "010"%char "... (error message truncated)").
Proof.
  intros H out err. subst out err.
  unfold Sanitizer.sanitize_output, Sanitizer.sanitize_error.
  destruct text as [|c s];
    [cbn; repeat split; try discriminate; try lia; congruence|].
  cbn [PyStr.truthy negb].
  destruct (Z.gtb_spec (Z.of_nat (String.length (String c s))) max_length)
    as [G|G].
  - repeat split; try lia.
    + intros E. apply (f_equal String.length) in E.
      rewrite length_append in E. cbn in E. lia.
    + intros E. apply (f_equal String.length) in E.
      rewrite length_append in E. cbn in E. lia.
    + rewrite length_append, Nat2Z.inj_add, slice_to_length by exact H. lia.
    + rewrite length_append, Nat2Z.inj_add, slice_to_length by exact H. lia.
    + rewrite slice_to_nonneg by exact H. rewrite Z.min_l by lia. reflexivity.
    + rewrite slice_to_nonneg by exact H. rewrite Z.min_l by lia. reflexivity.
  - repeat split; try discriminate; try reflexivity; lia.
Qed.


(* ================================================================== *)
(** ** The pattern-based error categories *)

Lemma lower_char_idempotent (c : ascii) :
  Text.lower_char (Text.lower_char c) = Text.lower_char c.
Proof. destruct c as [[] [] [] [] [] [] [] []]; reflexivity. Qed.

Lemma lower_idempotent (s : string) :
  Text.lower (Text.lower s) = Text.lower s.
Proof.
  induction s as [|c s IH]; cbn; [reflexivity|].
  now rewrite lower_char_idempotent, IH.
Qed.

(** X11.  [categorize_error]: the category does not depend on the case of the
    text; a text that mentions "access", "denied" or "permission" is a
    permission problem whatever else it says and whatever the return
    code; [path_issue] is only ever decided by "path" together with "not"
    (a text with "invalid" is an invalid argument before the path test is
    reached); and the return code is consulted last: [general_error]
    means code 1, [unknown_error] a code other than 1 and 127. *)
Theorem categorize_error_table (error_output : string) (return_code : Z) :
  let has := fun keyword => PyStr.contains keyword (Text.lower error_output) in
  let category := FailureAnalyzer.categorize_error error_output return_code in
  FailureAnalyzer.categorize_error (Text.lower error_output) return_code
  = category
  /\ (has "access" || has "denied" || has "permission" = true ->
      category = FailureAnalyzer.permission_denied)
  /\ (category = FailureAnalyzer.path_issue ->
      has "path" = true /\ has "not" = true /\ has "invalid" = false
      /\ has "not found" = false)
  /\ (category = FailureAnalyzer.general_error -> return_code = 1%Z)
  /\ (category = FailureAnalyzer.unknown_error ->
      return_code <> 1%Z /\ return_code <> 127%Z
      /\ has "not recognized" = false /\ has "timed out" = false).
Proof.
  intros has category. subst category has.
  unfold FailureAnalyzer.categorize_error. rewrite lower_idempotent.
  cbv zeta beta. set (E := Text.lower error_output).
  split; [reflexivity|].
  split; [intros ->; reflexivity|].
  destruct (PyStr.contains "access" E || PyStr.contains "denied" E
            || PyStr.contains "permission" E);
    [repeat split; intros; discriminate|].
  destruct (PyStr.contains "not found" E) eqn:NF; cbn [orb];
    [repeat split; intros; discriminate|].
  destruct (PyStr.contains "cannot find" E);
    [repeat split; intros; discriminate|].
  destruct (PyStr.contains "syntax" E || PyStr.contains "unexpected token" E);
    [repeat split; intros; discriminate|].
  destruct (PyStr.contains "invalid" E) eqn:INV; cbn [orb];
    [repeat split; intros; discriminate|].
  destruct (PyStr.contains "illegal" E);
    [repeat split; intros; discriminate|].
  destruct (PyStr.contains "timeout" E); cbn [orb];
    [repeat split; intros; discriminate|].
  destruct (PyStr.contains "timed out" E);
    [repeat split; intros; discriminate|].
  destruct (PyStr.contains "path" E); cbn [andb];
    [destruct (PyStr.contains "not" E); cbn [orb];
     [repeat split; intros; discriminate|]|];
    (destruct (Z.eqb_spec return_code 127); cbn [orb];
     [repeat split; intros; discriminate|];
     destruct (PyStr.contains "not recognized" E);
     [repeat split; intros; discriminate|];
     destruct (Z.eqb_spec return_code 1);
     repeat split; intros; try discriminate; try assumption).
Qed.


(* ================================================================== *)
(** ** The conversation memory *)

Section MemoryFacts.

Import Memory.

Lemma deque_append_content {A : Type} (n : nat) (d : list A) (x : A) :
  List.length d <= n ->
  deque_append n d x = skipn (List.length d + 1 - n) (d ++ [x]).
Proof.
  intros H. unfold deque_append.
  destruct (Nat.eqb_spec n 0) as [->|N].
  - destruct d; [reflexivity | cbn in H; lia].
  - rewrite length_app. cbn [List.length].
    destruct (Nat.ltb_spec n (List.length d + 1)) as [L|L].
    + replace (List.length d + 1 - n) with 1 by lia.
      destruct d; reflexivity.
    + replace (List.length d + 1 - n) with 0 by lia. reflexivity.
Qed.

Lemma deque_append_length {A : Type} (n : nat) (d : list A) (x : A) :
  List.length d <= n ->
  List.length (deque_append n d x) = Nat.min (List.length d + 1) n.
Proof.
  intros H. rewrite deque_append_content by exact H.
  rewrite length_skipn, length_app. cbn [List.length]. lia.
Qed.

Lemma deque_of_length {A : Type} (n : nat) (items : list A) :
  List.length (deque_of n items) <= n.
Proof.
  unfold deque_of.
  assert (forall d, List.length d <= n ->
            List.length (fold_left (deque_append n) items d) <= n) as G.
  { induction items as [|x items IH]; intros d H; [exact H|].
    cbn [fold_left]. apply IH. rewrite deque_append_length by exact H. lia. }
  apply G. cbn. lia.
Qed.

(** X12.  The memory never holds more than [max_conversations] conversations,
    however it is filled: a new memory, one loaded from a stored list of
    any length, and one cleared are within the bound, and
    [add_conversation] keeps it within the bound.  Adding puts the new
    conversation last and, when the memory is full, drops the oldest
    one; with a bound of 0 nothing is ever kept. *)
Theorem memory_capacity (self : ConversationMemory) (input : string)
    (command : option string) (result : option Executor.result)
    (analysis : option analysis_dict) (meta : list (string * string))
    (stored : list conversation) :
  well_sized self ->
  let conv := make_conversation input command result analysis meta in
  let self' := add_conversation self input command result analysis meta in
  well_sized self'
  /\ max_conversations self' = max_conversations self
  /\ (List.length (conversations self) < max_conversations self ->
      conversations self' = (conversations self ++ [conv])%list)
  /\ (List.length (conversations self) = max_conversations self ->
      0 < max_conversations self ->
      conversations self' = (tl (conversations self) ++ [conv])%list)
  /\ (max_conversations self = 0 -> conversations self' = [])
  /\ well_sized (load self stored)
  /\ well_sized (clear_memory self)
  /\ well_sized (new_memory (max_conversations self)).
Proof.
  intros H conv self'. subst self'. unfold well_sized in *.
  cbn [add_conversation conversations max_conversations load clear_memory
       new_memory List.length].
  fold conv. repeat split.
  - rewrite deque_append_length by exact H. lia.
  - intros L. rewrite deque_append_content by exact H.
    replace (_ + 1 - _) with 0 by lia. reflexivity.
  - intros E P. rewrite deque_append_content by exact H.
    replace (_ + 1 - _) with 1 by lia.
    destruct (conversations self); [cbn in E; lia | reflexivity].
  - intros Z. unfold deque_append. rewrite Z. cbn.
    destruct (conversations self); [reflexivity | cbn in H; lia].
  - apply deque_of_length.
  - lia.
  - lia.
Qed.

Lemma slice_to_bound (n : Z) (s : string) :
  (0 <= n)%Z -> String.length (PyStr.slice_to n s) <= Z.to_nat n.
Proof.
  intros H. pose proof (slice_to_length n s H). lia.
Qed.

(** X13.  What is remembered of an execution is its return code and bounded
    previews of its output: at most 500 characters of [stdout], 200 of
    [stderr] and 500 of an analysis; text within the bound is kept
    whole. *)
Theorem conversation_previews (input : string) (command : option string)
    (r : Executor.result) (a : analysis_dict) (meta : list (string * string)) :
  let conv := make_conversation input command (Some r) (Some a) meta in
  exists s an,
    execution_result conv = Some s /\ analysis_result conv = Some an
    /\ status s = Executor.return_code r
    /\ String.length (stdout_preview s) <= 500
    /\ String.length (stderr_preview s) <= 200
    /\ String.length (summary an) <= 500
    /\ (String.length (Executor.stdout r) <= 500 ->
        stdout_preview s = Executor.stdout r)
    /\ (String.length (Executor.stderr r) <= 200 ->
        stderr_preview s = Executor.stderr r)
    /\ user_input conv = input /\ generated_command conv = command.
Proof.
  intros conv. eexists. eexists. cbn.
  split; [reflexivity|]. split; [reflexivity|]. cbn.
  repeat split.
  - apply (slice_to_bound 500); lia.
  - apply (slice_to_bound 200); lia.
  - apply (slice_to_bound 500); lia.
  - intros L. rewrite slice_to_nonneg by lia. rewrite Z.min_r by lia.
    rewrite Nat2Z.id. clear L. induction (Executor.stdout r) as [|c s IH];
      [reflexivity|]. cbn. now rewrite IH.
  - intros L. rewrite slice_to_nonneg by lia. rewrite Z.min_r by lia.
    rewrite Nat2Z.id. clear L. induction (Executor.stderr r) as [|c s IH];
      [reflexivity|]. cbn. now rewrite IH.
Qed.

Lemma recent_loop_spec (count : Z) (rest : list conversation) :
  forall commands,
    (Z.of_nat (List.length commands) < count)%Z \/ commands = [] ->
    recent_loop count rest commands
    = (commands
       ++ firstn (Z.to_nat (Z.max (count - Z.of_nat (List.length commands)) 1))
                 (flat_map command_of rest))%list.
Proof.
  induction rest as [|conv rest IH]; intros commands H; cbn [recent_loop flat_map].
  - now rewrite firstn_nil, app_nil_r.
  - unfold command_of at 1.
    destruct (generated_command conv) as [command|]; [|apply IH, H].
    destruct (PyStr.truthy command); [|apply IH, H].
    cbn [app]. rewrite length_app. cbn [List.length].
    destruct (Z.geb_spec (Z.of_nat (List.length commands + 1)) count) as [G|G].
    + replace (Z.to_nat _) with 1
        by (destruct H as [H| ->]; cbn [List.length] in *; lia).
      reflexivity.
    + rewrite IH by (left; rewrite length_app; cbn [List.length]; lia).
      rewrite length_app. cbn [List.length]. rewrite <- app_assoc.
      cbn [app]. f_equal.
      replace (Z.to_nat (Z.max (count - Z.of_nat (List.length commands)) 1))
        with (S (Z.to_nat (Z.max (count - Z.of_nat (List.length commands + 1)) 1)))
        by lia.
      reflexivity.
Qed.

(** X14.  [get_recent_commands(count)] returns the non-empty commands in
    memory, newest first, cut after [count] of them, and after the first
    one when [count] is 0 or negative: asking for no commands still gives
    the newest. *)
Theorem recent_commands (self : ConversationMemory) (count : Z) :
  get_recent_commands self count
  = firstn (Z.to_nat (Z.max count 1)) (commands_newest_first self)
  /\ List.length (get_recent_commands self count) <= Z.to_nat (Z.max count 1)
  /\ ((count <= 0)%Z ->
      get_recent_commands self count = firstn 1 (commands_newest_first self)).
Proof.
  assert (get_recent_commands self count
          = firstn (Z.to_nat (Z.max count 1)) (commands_newest_first self)) as E.
  { unfold get_recent_commands. rewrite recent_loop_spec by (right; reflexivity).
    cbn [List.length app]. rewrite Z.sub_0_r. reflexivity. }
  split; [exact E | split].
  - rewrite E. apply firstn_le_length.
  - intros H. rewrite E. replace (Z.to_nat (Z.max count 1)) with 1 by lia.
    reflexivity.
Qed.

Lemma search_loop_spec (keyword_lower : string) (convs : list conversation) :
  forall matches,
    search_loop keyword_lower convs matches
    = (matches ++ filter (mentions keyword_lower) convs)%list.
Proof.
  induction convs as [|conv convs IH]; intros matches;
    cbn [search_loop filter]; [now rewrite app_nil_r|].
  replace (mentions keyword_lower conv)
    with (PyStr.contains keyword_lower (Text.lower (user_input conv))
          || match generated_command conv with
             | Some command =>
                 PyStr.truthy command
                 && PyStr.contains keyword_lower (Text.lower command)
             | None => false
             end) by reflexivity.
  destruct (PyStr.contains keyword_lower (Text.lower (user_input conv)));
    cbn [orb]; [rewrite IH, <- app_assoc; reflexivity|].
  destruct (generated_command conv) as [command|]; [|apply IH].
  destruct (PyStr.truthy command && _);
    [rewrite IH, <- app_assoc; reflexivity | apply IH].
Qed.

Lemma contains_empty (s : string) : PyStr.contains "" s = true.
Proof. destruct s; reflexivity. Qed.

(** X15.  [search_conversations] returns, in the order of the memory and each
    at most once, the conversations whose request or non-empty command
    contains the keyword; the case of the keyword does not matter, and
    the empty keyword finds every conversation. *)
Theorem search_results (self : ConversationMemory) (keyword : string) :
  search_conversations self keyword
  = filter (mentions (Text.lower keyword)) (conversations self)
  /\ search_conversations self (Text.lower keyword)
     = search_conversations self keyword
  /\ search_conversations self "" = conversations self.
Proof.
  unfold search_conversations. rewrite !search_loop_spec. cbn [app].
  rewrite lower_idempotent. repeat split.
  cbn [Text.lower]. induction (conversations self) as [|c l IH];
    [reflexivity|].
  cbn [filter]. unfold mentions at 1. rewrite contains_empty. cbn [orb].
  now rewrite IH.
Qed.

Lemma users_of_conversation (conv : conversation) :
  filter is_user (messages_of conv) = [mkMessage "user" (user_input conv)].
Proof.
  unfold messages_of. destruct (assistant_content conv); reflexivity.
Qed.

Lemma users_of_conversations (l : list conversation) :
  map content (filter is_user (flat_map messages_of l)) = map user_input l.
Proof.
  induction l as [|conv l IH]; [reflexivity|].
  cbn [flat_map]. rewrite filter_app, users_of_conversation. cbn.
  now rewrite IH.
Qed.

Lemma messages_bound (l : list conversation) :
  List.length (flat_map messages_of l) <= 2 * List.length l.
Proof.
  induction l as [|conv l IH]; [cbn; lia|].
  cbn [flat_map]. rewrite length_app. unfold messages_of at 1.
  destruct (assistant_content conv); cbn [List.length] in *; lia.
Qed.

(** X16.  [get_context_messages(include_last_n)]: the user messages are the
    requests of the conversations [list(...)[-include_last_n:]] selects,
    each followed by at most one assistant message.  For a positive
    number these are the last [include_last_n] conversations (all of them
    when there are fewer); for 0 the slice [[-0:]] is the whole list, so
    every conversation in memory is included. *)
Theorem context_window (self : ConversationMemory) (include_last_n : Z) :
  let convs := conversations self in
  let messages := get_context_messages self include_last_n in
  map content (filter is_user messages)
  = map user_input (Text.last_n include_last_n convs)
  /\ List.length messages <= 2 * List.length (Text.last_n include_last_n convs)
  /\ ((0 < include_last_n)%Z ->
      List.length (Text.last_n include_last_n convs)
      = Nat.min (Z.to_nat include_last_n) (List.length convs)
      /\ exists older, convs = (older ++ Text.last_n include_last_n convs)%list)
  /\ (include_last_n = 0%Z ->
      map content (filter is_user messages) = map user_input convs).
Proof.
  intros convs messages. subst messages. unfold get_context_messages.
  fold convs.
  assert (Text.last_n 0 convs = convs) as Z0.
  { unfold Text.last_n. cbn. rewrite Z.min_l by lia. reflexivity. }
  assert (forall l : list conversation,
            match l with
            | [] => []
            | _ :: _ => flat_map messages_of (Text.last_n include_last_n l)
            end = flat_map messages_of (Text.last_n include_last_n l)) as N.
  { intros [|x l]; [|reflexivity]. unfold Text.last_n.
    now rewrite skipn_nil. }
  rewrite N. clear N. repeat split.
  - apply users_of_conversations.
  - apply messages_bound.
  - unfold Text.last_n. destruct (Z.ltb_spec 0 include_last_n); [|lia].
    rewrite length_skipn. lia.
  - exists (firstn (Z.to_nat (if (0 <? include_last_n)%Z
                               then Z.max 0 (Z.of_nat (List.length convs) - include_last_n)
                               else Z.min (- include_last_n) (Z.of_nat (List.length convs))))
                   convs).
    unfold Text.last_n. now rewrite firstn_skipn.
  - intros ->. rewrite users_of_conversations, Z0. reflexivity.
Qed.

End MemoryFacts.

(* ================================================================== *)
(** ** The interactive loop *)

Lemma space_keeps_case (c : ascii) :
  Re.is_space c = true -> Text.lower_char c = c.
Proof.
  destruct c as [[] [] [] [] [] [] [] []]; cbn; try discriminate; reflexivity.
Qed.

Lemma sanitize_stripped (line : string) :
  Sanitizer.sanitize_user_input (Text.strip line)
  = Sanitizer.sanitize_user_input line.
Proof.
  unfold Sanitizer.sanitize_user_input.
  destruct (strip_spec line) as (_ & _ & _ & _ & ->). reflexivity.
Qed.

(** Membership in a list of words, word by word. *)
Lemma is_one_of_spec (words : list string) (text : string) :
  Cli.is_one_of words text = true <-> In (Text.lower text) words.
Proof.
  unfold Cli.is_one_of. rewrite existsb_exists. split.
  - intros (word & I & E). apply String.eqb_eq in E. now subst word.
  - intros I. exists (Text.lower text). split; [exact I | apply String.eqb_refl].
Qed.

(** X17.  What reaches the workflow from the prompt is a sanitised line,
    typed or spoken: never empty, at most 1000 characters long and
    without leading white space.  A typed line is compared with the
    special commands after the prompt stripped it, so white space around
    it does not matter, and the loop ends exactly on a typed exit word.
    A transcription is compared with the history and clear commands
    only: the spoken words exit, quit, q, /voice, /v and voice are run as
    requests. *)
Theorem requests_reaching_the_workflow (voice_enabled memory_enabled : bool)
    (line : string) (spoken : option string) :
  let round := Cli.loop_body voice_enabled memory_enabled in
  (forall request,
     round line spoken = Cli.RunWorkflow request ->
     request <> ""
     /\ String.length request <= 1000
     /\ (forall c rest, request = String c rest -> Re.is_space c = false)
     /\ (request = Sanitizer.sanitize_user_input line
         \/ exists text, spoken = Some text
                         /\ request = Sanitizer.sanitize_user_input text))
  /\ round (Text.strip line) spoken = round line spoken
  /\ (round line spoken = Cli.Goodbye <->
      Cli.is_one_of ["exit"; "quit"; "q"] (Text.strip line) = true)
  /\ (forall text,
        voice_enabled = true ->
        Cli.is_one_of ["/voice"; "/v"; "voice"] (Text.strip line) = true ->
        spoken = Some text ->
        Cli.is_one_of ["exit"; "quit"; "q"; "/voice"; "/v"; "voice"] text
        = true ->
        round line spoken
        = Cli.RunWorkflow (Sanitizer.sanitize_user_input text)).
Proof.
  intros round. subst round.
  assert (forall x request,
            Cli.after_voice memory_enabled x = Cli.RunWorkflow request ->
            request <> "" /\ String.length request <= 1000
            /\ (forall c rest, request = String c rest -> Re.is_space c = false)
            /\ request = Sanitizer.sanitize_user_input x) as AV.
  { intros x request. unfold Cli.after_voice.
    destruct (Cli.is_one_of _ x); [discriminate|].
    destruct (Cli.is_one_of _ x); [discriminate|].
    destruct (sanitized_request x) as (L & _ & H & _).
    destruct (Sanitizer.sanitize_user_input x) as [|c s] eqn:E;
      cbn [PyStr.truthy negb]; [discriminate|].
    intros [= <-]. repeat split; try assumption. discriminate. }
  assert (forall x, Cli.after_voice memory_enabled x <> Cli.Goodbye) as NG.
  { intros x. unfold Cli.after_voice.
    repeat match goal with
           | |- context [if ?b then _ else _] => destruct b
           end; discriminate. }
  split; [|split; [|split]].
  - intros request. unfold Cli.loop_body, Cli.prompt_ask.
    destruct (Cli.is_one_of _ (Text.strip line)); [discriminate|].
    destruct (Cli.is_one_of _ (Text.strip line)).
    + destruct (negb voice_enabled); [discriminate|].
      destruct spoken as [text|]; cbn [PyStr.truthy_opt];
        [|discriminate].
      destruct (negb (PyStr.truthy text)); [discriminate|].
      intros H. destruct (AV _ _ H) as (A & B & C & D).
      repeat split; try assumption. right. eauto.
    + intros H. destruct (AV _ _ H) as (A & B & C & D).
      repeat split; try assumption. left.
      rewrite D. apply sanitize_stripped.
  - unfold Cli.loop_body, Cli.prompt_ask.
    destruct (strip_spec line) as (_ & _ & _ & _ & ->). reflexivity.
  - unfold Cli.loop_body, Cli.prompt_ask.
    destruct (Cli.is_one_of ["exit"; "quit"; "q"] (Text.strip line));
      [split; reflexivity|].
    split; [|discriminate]. intros H. exfalso.
    destruct (Cli.is_one_of _ (Text.strip line)); [|exact (NG _ H)].
    destruct (negb voice_enabled); [discriminate|].
    destruct (negb (PyStr.truthy_opt spoken)); [discriminate|].
    exact (NG _ H).
  - intros text -> V -> T.
    apply is_one_of_spec in V. apply is_one_of_spec in T.
    assert (Text.all_space text = false) as NS.
    { destruct text as [|c rest];
        [cbn in T; intuition discriminate|].
      cbn [Text.all_space]. destruct (Re.is_space c) eqn:SP; [|reflexivity].
      exfalso. cbn [Text.lower] in T. rewrite (space_keeps_case c SP) in T.
      cbn in T.
      repeat match goal with
             | D : _ \/ _ |- _ => destruct D
             | D : String _ _ = String _ _ |- _ => injection D as <- _
             end; try discriminate; try contradiction. }
    unfold Cli.loop_body, Cli.prompt_ask, Cli.after_voice, Cli.is_one_of.
    cbn [In] in V, T.
    assert (existsb (String.eqb (Text.lower (Text.strip line)))
              ["exit"; "quit"; "q"] = false
            /\ existsb (String.eqb (Text.lower (Text.strip line)))
                 ["/voice"; "/v"; "voice"] = true) as (-> & ->).
    { repeat match goal with
             | D : _ \/ _ |- _ => destruct D
             | D : False |- _ => destruct D
             | D : _ = Text.lower _ |- _ => rewrite <- D
             end; split; reflexivity. }
    cbn [negb PyStr.truthy_opt].
    assert (PyStr.truthy text = true) as ->
      by (destruct text; [discriminate | reflexivity]).
    cbn [negb].
    assert (existsb (String.eqb (Text.lower text))
              ["/history"; "/h"; "history"] = false
            /\ existsb (String.eqb (Text.lower text))
                 ["/clear"; "/c"; "clear"] = false) as (-> & ->).
    { repeat match goal with
             | D : _ \/ _ |- _ => destruct D
             | D : False |- _ => destruct D
             | D : _ = Text.lower _ |- _ => rewrite <- D
             end; split; reflexivity. }
    destruct (sanitized_request text) as (_ & EM & _).
    destruct (Sanitizer.sanitize_user_input text) eqn:E; [|reflexivity].
    rewrite (proj1 EM eq_refl) in NS. discriminate.
Qed.


(* ================================================================== *)
(** ** The theorems above on concrete sessions and inputs *)

Lemma retry_count_within_budget_witness :
  let c := Scenario.after Graph.OperatorAdd 3
             (Scenario.session (fun _ => Scenario.list_files)
                               (false, "wrong path") 0) 20 in
  (0 <= Graph.retry_count (Graph.c_state c) <= 3)%Z
  /\ Graph.error_message (Graph.c_state c) = Some "Maximum retries exceeded".
Proof.
  intros c.
  destruct (retry_count_within_budget Graph.OperatorAdd (Scenario.settings 3)
              Scenario.no_intelligent_retry
              (Scenario.session (fun _ => Scenario.list_files)
                                (false, "wrong path") 0)
              "list files" c (ex_intro _ 20 eq_refl)) as (M & B & D & _).
  rewrite M in B. split; [exact B|]. apply D. vm_compute. reflexivity.
Defined.

Lemma execution_needs_confirmation_witness :
  let c := Scenario.after Graph.OperatorAdd 3
             (Scenario.session (fun _ => Scenario.list_files) (true, "") 0)
             10 in
  Graph.c_executed c <> []
  /\ Forall (fun st => Graph.user_confirmed st = Some true)
            (Graph.c_executed c).
Proof.
  intros c.
  destruct (execution_needs_confirmation Graph.OperatorAdd
              (Scenario.settings 3) Scenario.no_intelligent_retry
              (Scenario.session (fun _ => Scenario.list_files) (true, "") 0)
              "list files" c (ex_intro _ 10 eq_refl)) as (A & _).
  split; [vm_compute; discriminate|].
  apply Forall_forall. intros st I. exact (proj1 (A st I)).
Defined.

Lemma human_is_asked_once_witness :
  Graph.c_phase (Scenario.after Graph.OperatorAdd 3
                   (Scenario.session (fun _ => Scenario.list_files)
                                     (false, "wrong path") 0) 8)
  <> Graph.Suspended.
Proof.
  apply (human_is_asked_once Graph.OperatorAdd (Scenario.settings 3)
           Scenario.no_intelligent_retry
           (Scenario.session (fun _ => Scenario.list_files)
                             (false, "wrong path") 0)
           "list files" 2 5).
  vm_compute. reflexivity.
Defined.

Lemma refusal_is_final_witness :
  let c := Scenario.after Graph.OperatorAdd 3
             (Scenario.session (fun _ => Scenario.list_files)
                               (false, "wrong path") 0) 8 in
  Graph.user_confirmed (Graph.c_state c) = Some false
  /\ Graph.c_executed c = [].
Proof.
  intros c.
  destruct (refusal_is_final Graph.OperatorAdd (Scenario.settings 3)
              Scenario.no_intelligent_retry
              (Scenario.session (fun _ => Scenario.list_files)
                                (false, "wrong path") 0)
              "list files" 2 5) as (A & B & _).
  - vm_compute. reflexivity.
  - reflexivity.
  - exact (conj A B).
Defined.

Lemma generator_label_is_not_trusted_witness :
  let state := Graph.initial_state (Scenario.settings 3) "free some space" in
  let generate := fun _ : string =>
    Graph.Returned
      (Graph.mkGeneration "Remove-Item -Recurse -Force C:\Windows"
                          "Frees disk space" (Some "safe") []) in
  exists sa,
    Graph.safety_assessment
      (Graph.apply_update Graph.OperatorAdd
         (Graph.generate_command_node state generate) state) = Some sa
    /\ Graph.allow sa = false
    /\ Graph.llm_safety sa = Some "safe".
Proof.
  intros state generate.
  destruct (generator_label_is_not_trusted Graph.OperatorAdd state generate
              _ eq_refl) as (_ & _ & _ & sa & E & A & L & _).
  exists sa. split; [exact E | split; [|exact L]].
  rewrite A. vm_compute. reflexivity.
Defined.

Lemma sanitized_output_bounds_witness :
  Sanitizer.sanitize_output "Directory: C:\Users" 9 <> ""
  /\ (Z.of_nat (String.length (Sanitizer.sanitize_output "Directory: C:\Users" 9))
      <= 32)%Z.
Proof.
  destruct (sanitized_output_bounds "Directory: C:\Users" 9 ltac:(lia))
    as (A & _ & _ & _ & B & _).
  split; [exact A | exact B].
Defined.

Lemma memory_capacity_witness :
  Memory.well_sized
    (Memory.add_conversation (Memory.new_memory 2) "list files"
       (Some "Get-ChildItem") None None []).
Proof.
  assert (Memory.well_sized (Memory.new_memory 2)) as H
    by (unfold Memory.well_sized; cbn; lia).
  exact (proj1 (memory_capacity (Memory.new_memory 2) "list files"
                  (Some "Get-ChildItem") None None [] [] H)).
Defined.
